(** * Headless Fabric: a shallow embedding of [headless_fabric.py]

    The Python module wraps the Fabric 1.x API ([env], [execute], [run],
    [get], [put], [quiet], [hide]) so that it can be driven unattended.  The
    wrapper owns three things: the constructor, which writes the session
    policy into Fabric's process-global [env]; three public methods, which
    hand a task to Fabric's dispatcher; and two guard functions, which turn
    every way a transport call can end into a result or a Python exception.

    The embedding keeps the shape of the source: a state-and-exception monad
    for the Python control flow, one definition per method under the method's
    own name, and the answers of the network as a parameter of a section,
    since they are not decided by this code.  Fabric's [execute], which the
    public methods return from without a [try] of their own, is modelled as
    Fabric 1.x behaves: it cleans the host list, runs the task per host in
    the parent (serial) or in child processes (parallel, which every
    constructor turns on), and lets a task's failure out as an exception. *)

From Stdlib Require Import String ZArith List Bool Lia DecimalString Permutation.
Import ListNotations.

Local Open Scope list_scope.
Local Open Scope Z_scope.
Local Open Scope string_scope.

(** ** Python values and exceptions *)

(** The values that reach the logger as lazy [%]-arguments. *)
Inductive pyval : Type :=
| PInt (n : Z)
| PStr (s : string)
| PNone
| PList (l : list string).

(** [None]-or-string arguments ([key_file], [gateway]). *)
Definition pyval_of_opt (o : option string) : pyval :=
  match o with
  | Some s => PStr s
  | None => PNone
  end.

(** Python truthiness of a [None]-or-string value: [if key_file:]. *)
Definition truthy (o : option string) : bool :=
  match o with
  | Some s => negb (String.eqb s "")
  | None => false
  end.

(** [str(n)] for a Python integer. *)
Definition str_int (n : Z) : string := NilZero.string_of_int (Z.to_int n).

(** The exception classes the guards tell apart.  [RuntimeError],
    [LookupError] and every [OtherException] derive from [Exception];
    [SystemExit] and every [OtherBaseException] (KeyboardInterrupt,
    GeneratorExit) derive from [BaseException] only. *)
Inductive exn_class : Type :=
| RuntimeError
| LookupError
| SystemExit
| OtherException (name : string)
| OtherBaseException (name : string).

(** An exception object: its class and [str(exc)]. *)
Record py_exn : Type := Exn { exn_cls : exn_class; exn_str : string }.

(** [isinstance(exc, Exception)]: what [except Exception] catches. *)
Definition isinstance_Exception (exc : py_exn) : bool :=
  match exn_cls exc with
  | RuntimeError | LookupError | OtherException _ => true
  | SystemExit | OtherBaseException _ => false
  end.

(** [isinstance(exc, SystemExit)]: what [except SystemExit] catches. *)
Definition isinstance_SystemExit (exc : py_exn) : bool :=
  match exn_cls exc with
  | SystemExit => true
  | _ => false
  end.

(** How a Python call ends: it returns a value or raises. *)
Inductive outcome (A : Type) : Type :=
| Ok (a : A)
| Raise (e : py_exn).
Arguments Ok {A} a.
Arguments Raise {A} e.

(** ** Fabric's data *)

(** What the transport answers, as far as the wrapper reads it.  [run]
    returns a string with attributes: the [failed] flag, [return_code], and
    the output as [str(result)].  [get] and [put] return a list that has
    [failed] but neither of the other two: of their answers only [failed]
    is read, and asking such a list for [return_code] is an
    [AttributeError] (see [_transfer_file]). *)
Record result : Type := Result {
  failed : bool;
  return_code : Z;
  output : string
}.

(** The fields of Fabric's process-global [env] that the wrapper writes,
    plus the two that Fabric's own context managers bind around a call
    ([warn_only] under [quiet()], [host_string] under [execute]). *)
Record fabric_env : Type := Env {
  connection_attempts : Z;
  command_timeout : Z;
  timeout : Z;
  abort_on_prompts : bool;
  skip_bad_hosts : bool;
  parallel : bool;
  gateway : option string;
  use_ssh_config : bool;
  no_keys : bool;
  key_filename : option string;
  warn_only : bool;
  host_string : option string
}.

Definition set_connection_attempts (v : Z) (e : fabric_env) : fabric_env :=
  Env v (command_timeout e) (timeout e) (abort_on_prompts e) (skip_bad_hosts e)
      (parallel e) (gateway e) (use_ssh_config e) (no_keys e) (key_filename e)
      (warn_only e) (host_string e).

Definition set_command_timeout (v : Z) (e : fabric_env) : fabric_env :=
  Env (connection_attempts e) v (timeout e) (abort_on_prompts e) (skip_bad_hosts e)
      (parallel e) (gateway e) (use_ssh_config e) (no_keys e) (key_filename e)
      (warn_only e) (host_string e).

Definition set_timeout (v : Z) (e : fabric_env) : fabric_env :=
  Env (connection_attempts e) (command_timeout e) v (abort_on_prompts e)
      (skip_bad_hosts e) (parallel e) (gateway e) (use_ssh_config e) (no_keys e)
      (key_filename e) (warn_only e) (host_string e).

Definition set_abort_on_prompts (v : bool) (e : fabric_env) : fabric_env :=
  Env (connection_attempts e) (command_timeout e) (timeout e) v (skip_bad_hosts e)
      (parallel e) (gateway e) (use_ssh_config e) (no_keys e) (key_filename e)
      (warn_only e) (host_string e).

Definition set_skip_bad_hosts (v : bool) (e : fabric_env) : fabric_env :=
  Env (connection_attempts e) (command_timeout e) (timeout e) (abort_on_prompts e) v
      (parallel e) (gateway e) (use_ssh_config e) (no_keys e) (key_filename e)
      (warn_only e) (host_string e).

Definition set_parallel (v : bool) (e : fabric_env) : fabric_env :=
  Env (connection_attempts e) (command_timeout e) (timeout e) (abort_on_prompts e)
      (skip_bad_hosts e) v (gateway e) (use_ssh_config e) (no_keys e)
      (key_filename e) (warn_only e) (host_string e).

Definition set_gateway (v : option string) (e : fabric_env) : fabric_env :=
  Env (connection_attempts e) (command_timeout e) (timeout e) (abort_on_prompts e)
      (skip_bad_hosts e) (parallel e) v (use_ssh_config e) (no_keys e)
      (key_filename e) (warn_only e) (host_string e).

Definition set_use_ssh_config (v : bool) (e : fabric_env) : fabric_env :=
  Env (connection_attempts e) (command_timeout e) (timeout e) (abort_on_prompts e)
      (skip_bad_hosts e) (parallel e) (gateway e) v (no_keys e) (key_filename e)
      (warn_only e) (host_string e).

Definition set_no_keys (v : bool) (e : fabric_env) : fabric_env :=
  Env (connection_attempts e) (command_timeout e) (timeout e) (abort_on_prompts e)
      (skip_bad_hosts e) (parallel e) (gateway e) (use_ssh_config e) v
      (key_filename e) (warn_only e) (host_string e).

Definition set_key_filename (v : option string) (e : fabric_env) : fabric_env :=
  Env (connection_attempts e) (command_timeout e) (timeout e) (abort_on_prompts e)
      (skip_bad_hosts e) (parallel e) (gateway e) (use_ssh_config e) (no_keys e) v
      (warn_only e) (host_string e).

Definition set_warn_only (v : bool) (e : fabric_env) : fabric_env :=
  Env (connection_attempts e) (command_timeout e) (timeout e) (abort_on_prompts e)
      (skip_bad_hosts e) (parallel e) (gateway e) (use_ssh_config e) (no_keys e)
      (key_filename e) v (host_string e).

Definition set_host_string (v : option string) (e : fabric_env) : fabric_env :=
  Env (connection_attempts e) (command_timeout e) (timeout e) (abort_on_prompts e)
      (skip_bad_hosts e) (parallel e) (gateway e) (use_ssh_config e) (no_keys e)
      (key_filename e) (warn_only e) v.

(** ** The process state *)

Inductive level : Type := INFO | WARNING.

(** A record handed to the root logger: level, message (or format) and the
    lazy arguments of the format. *)
Record log_record : Type := LogRecord {
  log_level : level;
  log_msg : string;
  log_args : list pyval
}.

(** A request to the transport: the only places where the wrapper can cause
    network traffic. *)
Inductive call : Type :=
| Run (command : string)
| Get (remote_path local_path : string)
| Put (local_path remote_path : string).

(** Everything the module can read or change: Fabric's [env], the output
    groups currently hidden, the log, and the transport requests made so far
    (each with the host it was made under). *)
Record state : Type := State {
  env : fabric_env;
  hidden : list string;
  log : list log_record;
  calls : list (option string * call)
}.

Definition with_env (f : fabric_env -> fabric_env) (st : state) : state :=
  State (f (env st)) (hidden st) (log st) (calls st).

Definition with_hidden (h : list string) (st : state) : state :=
  State (env st) h (log st) (calls st).

Definition with_log (r : log_record) (st : state) : state :=
  State (env st) (hidden st) (log st ++ [r])%list (calls st).

Definition with_call (c : call) (st : state) : state :=
  State (env st) (hidden st) (log st)
        (calls st ++ [(host_string (env st), c)])%list.

(** ** Python control flow: state and exceptions *)

Definition M (A : Type) : Type := state -> outcome A * state.

Definition ret {A : Type} (a : A) : M A := fun st => (Ok a, st).

Definition raise {A : Type} (e : py_exn) : M A := fun st => (Raise e, st).

Definition bind {A B : Type} (c : M A) (k : A -> M B) : M B :=
  fun st =>
    match c st with
    | (Ok a, st') => k a st'
    | (Raise e, st') => (Raise e, st')
    end.

Notation "x <- c ;; k" := (bind c (fun x => k))
  (at level 61, c at next level, right associativity).
Notation "c ;; k" := (bind c (fun _ => k))
  (at level 61, right associativity).

(** [try: body  except ...: handler].  [handlers exc] is the first [except]
    clause that matches [exc], if any; an exception raised by the handler
    itself is not caught again by its siblings. *)
Definition try_except {A : Type} (body : M A) (handlers : py_exn -> option (M A))
  : M A :=
  fun st =>
    match body st with
    | (Ok a, st') => (Ok a, st')
    | (Raise exc, st') =>
        match handlers exc with
        | Some handler => handler st'
        | None => (Raise exc, st')
        end
    end.

(** [env.field = value]. *)
Definition setenv (f : fabric_env -> fabric_env) : M unit :=
  fun st => (Ok tt, with_env f st).

(** [LOG.info(fmt, *args)]. *)
Definition LOG_info (fmt : string) (args : list pyval) : M unit :=
  fun st => (Ok tt, with_log (LogRecord INFO fmt args) st).

(** [LOG.warning(err_str)]. *)
Definition LOG_warning (err_str : string) : M unit :=
  fun st => (Ok tt, with_log (LogRecord WARNING err_str []) st).

(** ** The constructor *)

(** A [HeadlessFabric] object.  [__init__] assigns no attribute of [self]:
    an instance carries nothing, and everything lives in [env]. *)
Inductive HeadlessFabric : Type := instance.

(** The keyword arguments of [__init__]; [None] in a numeric argument means
    the caller left it out. *)
Record init_args : Type := InitArgs {
  arg_conn_attempts : option Z;
  arg_cmd_timeout : option Z;
  arg_net_timeout : option Z;
  arg_key_file : option string;
  arg_gateway : option string
}.

(** [HeadlessFabric()]: every argument omitted. *)
Definition no_args : init_args := InitArgs None None None None None.

(** A keyword argument with its default. *)
Definition kwarg (default : Z) (given : option Z) : Z :=
  match given with
  | Some v => v
  | None => default
  end.

Definition __init__ (a : init_args) : M HeadlessFabric :=
  let conn_attempts := kwarg 3 (arg_conn_attempts a) in
  let cmd_timeout := kwarg 120 (arg_cmd_timeout a) in
  let net_timeout := kwarg 120 (arg_net_timeout a) in
  let key_file := arg_key_file a in
  let gateway := arg_gateway a in
  LOG_info ("Initializing Fabric with conn_attempts=%d, cmd_timeout=%d, net_timeout=%d, "
            ++ "key_file=%s, gateway=%s")
           [PInt conn_attempts; PInt cmd_timeout; PInt net_timeout;
            pyval_of_opt key_file; pyval_of_opt gateway] ;;
  setenv (set_connection_attempts conn_attempts) ;;
  setenv (set_command_timeout cmd_timeout) ;;
  setenv (set_timeout net_timeout) ;;
  setenv (set_abort_on_prompts true) ;;
  setenv (set_skip_bad_hosts true) ;;
  setenv (set_parallel true) ;;
  setenv (set_gateway gateway) ;;
  setenv (set_use_ssh_config true) ;;
  (if truthy key_file then
     setenv (set_no_keys true) ;;
     setenv (set_key_filename key_file)
   else ret tt) ;;
  ret instance.

(** ** The Fabric API and the methods built on it *)

(** What a caller may pass where a host is expected: Python does not stop a
    list from arriving in the [host] parameter of [get_file] or [put_file]. *)
Inductive host_arg : Type :=
| HostStr (h : string)
| HostList (hs : list string).

Definition pyval_of_host (h : host_arg) : pyval :=
  match h with
  | HostStr s => PStr s
  | HostList l => PList l
  end.

(** The [hosts=] and [host=] keywords of Fabric's [execute]. *)
Inductive host_kw : Type :=
| KwHosts (hosts : list string)
| KwHost (host : host_arg).

(** ** Host strings, as Fabric's [execute] cleans them *)

(** The characters Python's [str.strip()] removes: space, and tab to
    carriage return. *)
Definition is_space (c : Ascii.ascii) : bool :=
  let n := Ascii.nat_of_ascii c in
  (Nat.eqb n 32 || (Nat.leb 9 n && Nat.leb n 13))%bool.

Fixpoint lstrip (s : string) : string :=
  match s with
  | EmptyString => EmptyString
  | String c rest => if is_space c then lstrip rest else s
  end.

Fixpoint rstrip (s : string) : string :=
  match s with
  | EmptyString => EmptyString
  | String c rest =>
      match rstrip rest with
      | EmptyString => if is_space c then EmptyString else String c EmptyString
      | kept => String c kept
      end
  end.

(** [host.strip()]. *)
Definition strip (s : string) : string := rstrip (lstrip s).

(** The hosts of a list that are not among those [seen], each once, in the
    order of their first occurrence. *)
Fixpoint dedupe_after (seen hosts : list string) : list string :=
  match hosts with
  | [] => []
  | h :: rest =>
      if existsb (String.eqb h) seen then dedupe_after seen rest
      else h :: dedupe_after (h :: seen) rest
  end.

(** The host list [execute] works on: every host string stripped, then
    duplicates dropped. *)
Definition all_hosts (named : list string) : list string :=
  dedupe_after [] (map strip named).

Section Wrapper.

(** What the remote side answers to a request made under a given [env]
    (which holds the host the request goes to).  The wrapper decides none
    of it, so it is a parameter. *)
Variable transport : fabric_env -> call -> outcome result.

(** [run(command)], [get(remote, local)], [put(local, remote)]: one
    request to the transport, under the current [env]. *)
Definition request (c : call) : M result :=
  fun st => (transport (env st) c, with_call c st).

Definition fabric_run (command : string) : M result := request (Run command).

Definition fabric_get (remote_path local_path : string) : M result :=
  request (Get remote_path local_path).

Definition fabric_put (local_path remote_path : string) : M result :=
  request (Put local_path remote_path).

(** [with quiet(), hide('output', 'running', 'warnings'): body].
    [quiet()] is [settings(hide('everything'), warn_only=True)]; both
    context managers put back what they found when the block is left,
    whether it returns or raises. *)
Definition with_quiet_hide {A : Type} (body : M A) : M A :=
  fun st =>
    let saved_warn_only := warn_only (env st) in
    let saved_hidden := hidden st in
    let inside :=
      with_hidden ("output" :: "running" :: "warnings" :: "everything" :: saved_hidden)
                  (with_env (set_warn_only true) st) in
    match body inside with
    | (r, st') =>
        (r, with_hidden saved_hidden (with_env (set_warn_only saved_warn_only) st'))
    end.

(** *** Fabric's [execute] *)

(** One run of a task for one host in the parent process: [execute] binds
    [env.host_string] for the run and restores it afterwards, however the
    run ends. *)
Definition run_on_host {A : Type} (task : M A) (host : string)
  : state -> (string * outcome A) * state :=
  fun st =>
    let saved := host_string (env st) in
    match task (with_env (set_host_string (Some host)) st) with
    | (r, st') => ((host, r), with_env (set_host_string saved) st')
    end.

(** Serial mode: the hosts in turn.  An exception of the task leaves
    [execute] at once; the hosts after it are not visited. *)
Fixpoint run_serial {A : Type} (task : M A) (hosts : list string)
  : M (list (string * outcome A)) :=
  fun st =>
    match hosts with
    | [] => (Ok [], st)
    | host :: rest =>
        match run_on_host task host st with
        | ((h, Ok r), st') =>
            match run_serial task rest st' with
            | (Ok entries, st'') => (Ok ((h, Ok r) :: entries), st'')
            | (Raise e, st'') => (Raise e, st'')
            end
        | ((_, Raise e), st') => (Raise e, st')
        end
    end.

(** One run of a task for one host in a child process.  The child works on
    its own copy of [env] and of the output settings, so the parent's are as
    before; what it logs and what it asks of the transport is done all the
    same.  The pair is what the child reports to the parent: the task's
    result, or the exception it ended with. *)
Definition in_child {A : Type} (task : M A) (host : string)
  : state -> (string * outcome A) * state :=
  fun st =>
    match task (with_env (set_host_string (Some host)) st) with
    | (r, st') => ((host, r), State (env st) (hidden st) (log st') (calls st'))
    end.

(** One child per host.  The children run side by side; their records and
    requests are listed here in the order of the hosts. *)
Fixpoint run_children {A : Type} (task : M A) (hosts : list string)
  : state -> list (string * outcome A) * state :=
  fun st =>
    match hosts with
    | [] => ([], st)
    | host :: rest =>
        match in_child task host st with
        | (entry, st') =>
            match run_children task rest st' with
            | (entries, st'') => (entry :: entries, st'')
            end
        end
    end.

Definition succeeded {A : Type} (entry : string * outcome A) : bool :=
  match snd entry with
  | Ok _ => true
  | Raise _ => false
  end.

(** Parallel mode: every child runs to its end.  If one of them failed,
    the parent calls Fabric's [error]: under [warn_only] it warns and keeps
    the child's exception as the host's value, otherwise it aborts, which
    is [sys.exit(1)]. *)
Definition run_parallel {A : Type} (task : M A) (hosts : list string)
  : M (list (string * outcome A)) :=
  fun st =>
    match run_children task hosts st with
    | (entries, st') =>
        if (forallb succeeded entries || warn_only (env st))%bool
        then (Ok entries, st')
        else (Raise (Exn SystemExit "1"), st')
    end.

(** Fabric's [execute(task, ..., hosts=/host=)] for a task that lets no
    [NetworkError] out, as the guards below are.  A list passed as [host=]
    fails in the cleaning of the hosts (a list has no [strip]), before the
    task is run.  With no host at all the task is run once in the parent,
    unbound, under the key ["<local-only>"].  Otherwise the hosts are
    cleaned and the task is run for each, in child processes if
    [env.parallel] is set.  The value of a host in the mapping is the task's
    result (or, in the one case above, its exception). *)
Definition fabric_execute {A : Type} (task : M A) (kw : host_kw)
  : M (list (string * outcome A)) :=
  fun st =>
    let dispatch (named : list string) :=
      match named with
      | [] =>
          match task st with
          | (Ok r, st') => (Ok [("<local-only>", Ok r)], st')
          | (Raise e, st') => (Raise e, st')
          end
      | _ =>
          if parallel (env st) then run_parallel task (all_hosts named) st
          else run_serial task (all_hosts named) st
      end in
    match kw with
    | KwHosts hosts => dispatch hosts
    | KwHost (HostStr h) => dispatch [h]
    | KwHost (HostList _) =>
        (Raise (Exn (OtherException "AttributeError")
                    "'list' object has no attribute 'strip'"), st)
    end.

(** *** The guards *)

(** [result.return_code] where [result] is what [get] or [put] returned:
    the list has no such attribute. *)
Definition return_code_of_transfer : M Z :=
  raise (Exn (OtherException "AttributeError")
             "'_AttributeList' object has no attribute 'return_code'").

Definition _transfer_file (transfer_func : string -> string -> M result)
           (file1 file2 : string) : M result :=
  try_except
    (result <- with_quiet_hide (transfer_func file1 file2) ;;
     if failed result then
       return_code <- return_code_of_transfer ;;
       let err_str :=
         "File transfer (" ++ file1 ++ " - " ++ file2
         ++ ") failed with status code " ++ str_int return_code in
       LOG_warning err_str ;;
       raise (Exn RuntimeError err_str)
     else ret result)
    (fun exc =>
       if isinstance_Exception exc then
         Some (let err_str :=
                 "File transfer (" ++ file1 ++ " - " ++ file2
                 ++ ") failed because: " ++ exn_str exc in
               LOG_warning err_str ;;
               raise (Exn RuntimeError err_str))
       else if isinstance_SystemExit exc then
         Some (let err_str :=
                 "File transfer (" ++ file1 ++ " - " ++ file2
                 ++ ") failed because a user prompt was needed: " ++ exn_str exc in
               LOG_warning err_str ;;
               raise (Exn LookupError err_str))
       else None).

Definition _run_fabric_command (command : string) : M result :=
  try_except
    (result <- with_quiet_hide (fabric_run command) ;;
     if failed result then
       let err_str :=
         "Remote command '" ++ command ++ "' failed with status code "
         ++ str_int (return_code result) ++ ": " ++ output result in
       LOG_warning err_str ;;
       raise (Exn RuntimeError err_str)
     else ret result)
    (fun exc =>
       if isinstance_Exception exc then
         Some (let err_str :=
                 "Remote command " ++ command ++ " failed because '"
                 ++ exn_str exc ++ "'" in
               LOG_warning err_str ;;
               raise (Exn RuntimeError err_str))
       else if isinstance_SystemExit exc then
         Some (let err_str :=
                 "Remote command " ++ command
                 ++ " failed because a user prompt was needed: " ++ exn_str exc in
               LOG_warning err_str ;;
               raise (Exn LookupError err_str))
       else None).

(** *** The public methods *)

Definition execute (self : HeadlessFabric) (command : string)
           (host_list : list string) : M (list (string * outcome result)) :=
  LOG_info "Executing remote command '%s' on hosts %s"
           [PStr command; PList host_list] ;;
  fabric_execute (_run_fabric_command command) (KwHosts host_list).

Definition get_file (self : HeadlessFabric) (host : host_arg)
           (remote_file local_file : string)
  : M (list (string * outcome result)) :=
  LOG_info "Transferring file %s on %s to local location %s"
           [PStr remote_file; pyval_of_host host; PStr local_file] ;;
  fabric_execute (_transfer_file fabric_get remote_file local_file) (KwHost host).

Definition put_file (self : HeadlessFabric) (host : host_arg)
           (local_file remote_file : string)
  : M (list (string * outcome result)) :=
  LOG_info "Transferring local file %s to %s on host %s"
           [PStr local_file; PStr remote_file; pyval_of_host host] ;;
  fabric_execute (_transfer_file fabric_put local_file remote_file) (KwHost host).

End Wrapper.

(** ** Reading the guards

    What a guard makes of the transport's answer, written without the
    monad: the outcome it hands back and the records it logs.  The lemmas
    below show that the two guards compute exactly these. *)

Definition warning (err_str : string) : log_record := LogRecord WARNING err_str [].

Definition run_guard (command : string) (raw : outcome result) : outcome result :=
  match raw with
  | Ok r =>
      if failed r then
        Raise (Exn RuntimeError
                 ("Remote command " ++ command ++ " failed because '"
                  ++ ("Remote command '" ++ command ++ "' failed with status code "
                      ++ str_int (return_code r) ++ ": " ++ output r)
                  ++ "'"))
      else Ok r
  | Raise exc =>
      if isinstance_Exception exc then
        Raise (Exn RuntimeError
                 ("Remote command " ++ command ++ " failed because '"
                  ++ exn_str exc ++ "'"))
      else if isinstance_SystemExit exc then
        Raise (Exn LookupError
                 ("Remote command " ++ command
                  ++ " failed because a user prompt was needed: " ++ exn_str exc))
      else Raise exc
  end.

Definition run_guard_log (command : string) (raw : outcome result) : list log_record :=
  match raw with
  | Ok r =>
      if failed r then
        [warning ("Remote command '" ++ command ++ "' failed with status code "
                  ++ str_int (return_code r) ++ ": " ++ output r);
         warning ("Remote command " ++ command ++ " failed because '"
                  ++ ("Remote command '" ++ command ++ "' failed with status code "
                      ++ str_int (return_code r) ++ ": " ++ output r)
                  ++ "'")]
      else []
  | Raise exc =>
      if isinstance_Exception exc then
        [warning ("Remote command " ++ command ++ " failed because '"
                  ++ exn_str exc ++ "'")]
      else if isinstance_SystemExit exc then
        [warning ("Remote command " ++ command
                  ++ " failed because a user prompt was needed: " ++ exn_str exc)]
      else []
  end.

Definition transfer_guard (file1 file2 : string) (raw : outcome result)
  : outcome result :=
  match raw with
  | Ok r =>
      if failed r then
        Raise (Exn RuntimeError
                 ("File transfer (" ++ file1 ++ " - " ++ file2 ++ ") failed because: "
                  ++ "'_AttributeList' object has no attribute 'return_code'"))
      else Ok r
  | Raise exc =>
      if isinstance_Exception exc then
        Raise (Exn RuntimeError
                 ("File transfer (" ++ file1 ++ " - " ++ file2 ++ ") failed because: "
                  ++ exn_str exc))
      else if isinstance_SystemExit exc then
        Raise (Exn LookupError
                 ("File transfer (" ++ file1 ++ " - " ++ file2
                  ++ ") failed because a user prompt was needed: " ++ exn_str exc))
      else Raise exc
  end.

Definition transfer_guard_log (file1 file2 : string) (raw : outcome result)
  : list log_record :=
  match raw with
  | Ok r =>
      if failed r then
        [warning ("File transfer (" ++ file1 ++ " - " ++ file2 ++ ") failed because: "
                  ++ "'_AttributeList' object has no attribute 'return_code'")]
      else []
  | Raise exc =>
      if isinstance_Exception exc then
        [warning ("File transfer (" ++ file1 ++ " - " ++ file2 ++ ") failed because: "
                  ++ exn_str exc)]
      else if isinstance_SystemExit exc then
        [warning ("File transfer (" ++ file1 ++ " - " ++ file2
                  ++ ") failed because a user prompt was needed: " ++ exn_str exc)]
      else []
  end.

(** The [env] a request is made under when the operation was started under
    [e]: [quiet()] has set [warn_only], and [execute] has bound the host. *)
Definition quiet_env (e : fabric_env) : fabric_env := set_warn_only true e.

Definition bound_env (host : string) (e : fabric_env) : fabric_env :=
  quiet_env (set_host_string (Some host) e).

(** The state a guard leaves behind: [env] and the hidden groups as found,
    the warnings appended to the log, one more request on record. *)
Definition after_guard (c : call) (warnings : list log_record) (st : state) : state :=
  State (env st) (hidden st) (log st ++ warnings)%list
        (calls st ++ [(host_string (env st), c)])%list.

(** The session policy as it stands in [env]. *)
Record policy : Type := Policy {
  conn_attempts : Z;
  cmd_timeout : Z;
  net_timeout : Z;
  key_file : option string;
  via_gateway : option string
}.

(** The policy an [env] enforces: the key restriction is in force when
    [no_keys] is set, and then names [key_filename]. *)
Definition policy_in_force (e : fabric_env) : policy :=
  Policy (connection_attempts e) (command_timeout e) (timeout e)
         (if no_keys e then key_filename e else None) (gateway e).

(** The policy a constructor call asks for. *)
Definition policy_asked (a : init_args) : policy :=
  Policy (kwarg 3 (arg_conn_attempts a)) (kwarg 120 (arg_cmd_timeout a))
         (kwarg 120 (arg_net_timeout a))
         (if truthy (arg_key_file a) then arg_key_file a else None)
         (arg_gateway a).



(** The state a batch leaves behind when each host's run behaves like a
    guard: per host, the warnings [w] of that host's run and one request [c]
    made under that host. *)
Definition after_hosts (c : call) (w : fabric_env -> list log_record)
           (hosts : list string) (st : state) : state :=
  State (env st) (hidden st)
        (log st ++ concat (map (fun h => w (set_host_string (Some h) (env st))) hosts))%list
        (calls st ++ map (fun h => (Some h, c)) hosts)%list.

(** The mapping a batch returns: per host, what the guard [g] made of the
    run under that host. *)
Definition entries_of {A : Type} (g : fabric_env -> outcome A)
           (hosts : list string) (e : fabric_env) : list (string * outcome A) :=
  map (fun h => (h, g (set_host_string (Some h) e))) hosts.

(** Serial mode, read without the monad: the hosts that are visited (up to
    and including the first whose run raises), and what [execute] returns
    or raises. *)
Fixpoint serial_asked {A : Type} (g : fabric_env -> outcome A)
         (hosts : list string) (e : fabric_env) : list string :=
  match hosts with
  | [] => []
  | h :: rest =>
      match g (set_host_string (Some h) e) with
      | Ok _ => h :: serial_asked g rest e
      | Raise _ => [h]
      end
  end.

Fixpoint serial_outcome {A : Type} (g : fabric_env -> outcome A)
         (hosts : list string) (e : fabric_env)
  : outcome (list (string * outcome A)) :=
  match hosts with
  | [] => Ok []
  | h :: rest =>
      match g (set_host_string (Some h) e) with
      | Ok r =>
          match serial_outcome g rest e with
          | Ok entries => Ok ((h, Ok r) :: entries)
          | Raise exc => Raise exc
          end
      | Raise exc => Raise exc
      end
  end.

(** Parallel mode, read without the monad. *)
Definition parallel_outcome {A : Type} (entries : list (string * outcome A))
           (warn : bool) : outcome (list (string * outcome A)) :=
  if (forallb succeeded entries || warn)%bool then Ok entries
  else Raise (Exn SystemExit "1").

(** ** Calls of the public methods *)

(** One call of a public method, so that a statement can range over the
    three of them. *)
Inductive invocation : Type :=
| Execute (command : string) (host_list : list string)
| GetFile (host : host_arg) (remote_file local_file : string)
| PutFile (host : host_arg) (local_file remote_file : string).

Definition invoke (transport : fabric_env -> call -> outcome result)
           (self : HeadlessFabric) (i : invocation)
  : M (list (string * outcome result)) :=
  match i with
  | Execute command host_list =>
      execute transport self command host_list
  | GetFile host remote_file local_file =>
      get_file transport self host remote_file local_file
  | PutFile host local_file remote_file =>
      put_file transport self host local_file remote_file
  end.

(** The request the call makes of the transport, once per host. *)
Definition request_of (i : invocation) : call :=
  match i with
  | Execute command _ => Run command
  | GetFile _ remote_file local_file => Get remote_file local_file
  | PutFile _ local_file remote_file => Put local_file remote_file
  end.

(** The hosts the call names as strings.  A list passed as the single host
    of a transfer names none: Fabric refuses it. *)
Definition targets (i : invocation) : list string :=
  match i with
  | Execute _ host_list => host_list
  | GetFile (HostStr h) _ _ | PutFile (HostStr h) _ _ => [h]
  | GetFile (HostList _) _ _ | PutFile (HostList _) _ _ => []
  end.


(** The record the method logs on entry. *)
Definition entry_record (i : invocation) : log_record :=
  match i with
  | Execute command host_list =>
      LogRecord INFO "Executing remote command '%s' on hosts %s"
                [PStr command; PList host_list]
  | GetFile host remote_file local_file =>
      LogRecord INFO "Transferring file %s on %s to local location %s"
                [PStr remote_file; pyval_of_host host; PStr local_file]
  | PutFile host local_file remote_file =>
      LogRecord INFO "Transferring local file %s to %s on host %s"
                [PStr local_file; PStr remote_file; pyval_of_host host]
  end.

(** The guard the call runs for each host, read as in [run_guard] and
    [transfer_guard]. *)
Definition guard_of (i : invocation) (raw : outcome result) : outcome result :=
  match i with
  | Execute command _ => run_guard command raw
  | GetFile _ remote_file local_file => transfer_guard remote_file local_file raw
  | PutFile _ local_file remote_file => transfer_guard local_file remote_file raw
  end.

Definition guard_log_of (i : invocation) (raw : outcome result) : list log_record :=
  match i with
  | Execute command _ => run_guard_log command raw
  | GetFile _ remote_file local_file => transfer_guard_log remote_file local_file raw
  | PutFile _ local_file remote_file => transfer_guard_log local_file remote_file raw
  end.

(** What the call's guard hands back, and what it logs, when it is entered
    under [e]. *)
Definition answer_of (transport : fabric_env -> call -> outcome result)
           (i : invocation) (e : fabric_env) : outcome result :=
  guard_of i (transport (quiet_env e) (request_of i)).

Definition warnings_by (transport : fabric_env -> call -> outcome result)
           (i : invocation) (e : fabric_env) : list log_record :=
  guard_log_of i (transport (quiet_env e) (request_of i)).

(** What Fabric's [execute] does with the hosts of the call: it refuses
    a list passed as one host, runs the task unbound when no host is named,
    and otherwise visits the cleaned hosts. *)
Inductive visit : Type :=
| Refused
| LocalOnly
| Hosts (hosts : list string).

Definition visited (i : invocation) : visit :=
  match i with
  | Execute _ [] => LocalOnly
  | Execute _ host_list => Hosts (all_hosts host_list)
  | GetFile (HostStr h) _ _ | PutFile (HostStr h) _ _ => Hosts (all_hosts [h])
  | GetFile (HostList _) _ _ | PutFile (HostList _) _ _ => Refused
  end.

(** The exception with which Fabric refuses a list passed as one host. *)
Definition list_has_no_strip : py_exn :=
  Exn (OtherException "AttributeError") "'list' object has no attribute 'strip'".

(** The warnings of a log. *)
Definition warnings_of (l : list log_record) : list log_record :=
  filter (fun r => match log_level r with WARNING => true | INFO => false end) l.

(** The transport that answers a download as the given one answers the
    upload of the same pair, and the other way round. *)
Definition swap_transfers (transport : fabric_env -> call -> outcome result)
  : fabric_env -> call -> outcome result :=
  fun e c =>
    match c with
    | Run command => transport e (Run command)
    | Get a b => transport e (Put a b)
    | Put a b => transport e (Get a b)
    end.

(** ** Sample processes *)

(** An [env] in which nothing has been configured: no key restriction, no
    gateway, no host bound, prompts allowed. *)
Definition fresh_env : fabric_env :=
  Env 1 10 10 false false false None false false None false None.

Definition fresh : state := State fresh_env [] [] [].

(** A transport that finds it has to prompt: Fabric calls [sys.exit(1)]. *)
Definition prompts : fabric_env -> call -> outcome result :=
  fun _ _ => Raise (Exn SystemExit "1").

(** A transport that has to prompt for a host when none is bound, and
    otherwise succeeds with empty output. *)
Definition needs_a_host : fabric_env -> call -> outcome result :=
  fun e _ =>
    match host_string e with
    | Some _ => Ok (Result false 0 "")
    | None => Raise (Exn SystemExit "1")
    end.

(** A reachable host on which the command ends with status 1. *)
Definition exits_with_1 : fabric_env -> call -> outcome result :=
  fun _ _ => Ok (Result true 1 "boom").

(** A host that cannot be reached. *)
Definition unreachable : fabric_env -> call -> outcome result :=
  fun _ _ => Raise (Exn (OtherException "NetworkError") "timed out").

(** A transport error whose text happens to read like a failed command. *)
Definition fails_like_exit_1 : fabric_env -> call -> outcome result :=
  fun _ _ =>
    Raise (Exn (OtherException "NetworkError")
               "Remote command 'ls' failed with status code 1: boom").

(** A transport on which every request succeeds. *)
Definition succeeds : fabric_env -> call -> outcome result :=
  fun _ _ => Ok (Result false 0 "done").

(** The process after [HeadlessFabric()]. *)
Definition constructed : state := snd (__init__ no_args fresh).

(** [HeadlessFabric(key_file="id_rsa")]. *)
Definition with_key : init_args := InitArgs None None None (Some "id_rsa") None.

(** ** A process over time *)

(** What can happen to the shared [env] during the life of a process that
    uses this module: an instance is constructed, or a public method is
    called on one. *)
Inductive action : Type :=
| Construct (a : init_args)
| Call (self : HeadlessFabric) (i : invocation).

Definition is_construct (act : action) : bool :=
  match act with
  | Construct _ => true
  | Call _ _ => false
  end.

Definition perform (transport : fabric_env -> call -> outcome result)
           (act : action) (st : state) : state :=
  match act with
  | Construct a => snd (__init__ a st)
  | Call self i => snd (invoke transport self i st)
  end.

(** The actions of a list, one after the other. *)
Definition history (transport : fabric_env -> call -> outcome result)
           (acts : list action) (st : state) : state :=
  fold_left (fun s act => perform transport act s) acts st.

(** A transport interrupted from the keyboard. *)
Definition interrupted : fabric_env -> call -> outcome result :=
  fun _ _ => Raise (Exn (OtherBaseException "KeyboardInterrupt") "").

(** ** The usage example ([example.py]) *)

(** What [print] writes: a string, or the mapping [execute] returned (a
    host's value being the task's result or, when Fabric only warned of a
    failed child, its exception). *)
Inductive printed : Type :=
| PrintStr (s : string)
| PrintData (data : list (string * outcome result)).

(** The process of the example: the module's state and standard output. *)
Record process : Type := Process {
  fabric_state : state;
  stdout : list printed
}.

Definition P (A : Type) : Type := process -> outcome A * process.

Definition pret {A : Type} (a : A) : P A := fun p => (Ok a, p).

Definition pbind {A B : Type} (c : P A) (k : A -> P B) : P B :=
  fun p =>
    match c p with
    | (Ok a, p') => k a p'
    | (Raise e, p') => (Raise e, p')
    end.

Notation "x <~ c ;; k" := (pbind c (fun x => k))
  (at level 61, c at next level, right associativity).

(** A call into the module from the script. *)
Definition in_module {A : Type} (c : M A) : P A :=
  fun p =>
    match c (fabric_state p) with
    | (r, st') => (r, Process st' (stdout p))
    end.

Definition print (v : printed) : P unit :=
  fun p => (Ok tt, Process (fabric_state p) (stdout p ++ [v])%list).

(** The characters written [\t] and [\n] in the Python source. *)
Definition TAB : string := String (Ascii.ascii_of_nat 9) "".
Definition NL : string := String (Ascii.ascii_of_nat 10) "".

Section Example.

Variable transport : fabric_env -> call -> outcome result.

Definition execute_example : P unit :=
  _ <~ print (PrintStr "Initializing HeadlessFabric...") ;;
  _ <~ print (PrintStr (TAB ++ "Maximum number of connection attempts to remote host: 3")) ;;
  _ <~ print (PrintStr (TAB ++ "Command timeout (in seconds): 120")) ;;
  _ <~ print (PrintStr (TAB ++ "Network timeout (in seconds): 120")) ;;
  ssh <~ in_module (__init__ (InitArgs (Some 3) (Some 120) (Some 120) None None)) ;;
  _ <~ print (PrintStr "Executing 'ls' on localhost") ;;
  data <~ in_module (execute transport ssh "ls" ["localhost"]) ;;
  _ <~ print (PrintData data) ;;
  _ <~ print (PrintStr (NL ++ "Executing 'ls >example.out' on localhost")) ;;
  data <~ in_module (execute transport ssh "ls >example.out" ["localhost"]) ;;
  _ <~ print (PrintStr (NL ++ "Downloading 'example.out' to 'local_example.out'")) ;;
  _ <~ in_module (get_file transport ssh (HostStr "localhost")
                           "example.out" "local_example.out") ;;
  print (PrintStr (NL ++ "Success! (You may want to delete those example files.)")).

End Example.

(** The three requests of the example, in the order the script makes them. *)
Definition example_requests : list (option string * call) :=
  [(Some "localhost", Run "ls");
   (Some "localhost", Run "ls >example.out");
   (Some "localhost", Get "example.out" "local_example.out")].


(** * Properties *)

(** ** Records and brackets *)

Lemma set_warn_only_restore (e : fabric_env) (b : bool) :
  set_warn_only (warn_only e) (set_warn_only b e) = e.
Proof. destruct e; reflexivity. Qed.

Lemma set_host_string_restore (e : fabric_env) (h : option string) :
  set_host_string (host_string e) (set_host_string h e) = e.
Proof. destruct e; reflexivity. Qed.

(** Both sides are a pair of an outcome and a state; after the monad is
    unfolded they differ by the restored bracket and by how the log was
    appended to. *)
Ltac guard_state :=
  unfold return_code_of_transfer, after_guard, LOG_warning, raise, ret, bind,
    warning, quiet_env;
  cbn [isinstance_Exception isinstance_SystemExit exn_cls exn_str];
  unfold with_log, with_hidden, with_env, with_call;
  cbn [env hidden log calls];
  rewrite ?set_warn_only_restore, ?app_nil_r, <- ?app_assoc;
  reflexivity.

(** ** The guards compute [run_guard] and [transfer_guard] *)

Section GuardEquations.

Variable transport : fabric_env -> call -> outcome result.

Lemma _run_fabric_command_eq (command : string) (st : state) :
  let raw := transport (quiet_env (env st)) (Run command) in
  _run_fabric_command transport command st
  = (run_guard command raw,
     after_guard (Run command) (run_guard_log command raw) st).
Proof.
  destruct st as [e hid lg cs].
  cbv beta zeta.
  unfold _run_fabric_command, try_except, bind, with_quiet_hide, fabric_run, request.
  cbn [env hidden log calls with_env with_hidden with_call].
  fold (quiet_env e).
  destruct (transport (quiet_env e) (Run command)) as [r | exc];
    cbn [run_guard run_guard_log].
  - destruct (failed r); guard_state.
  - destruct (isinstance_Exception exc); [| destruct (isinstance_SystemExit exc)];
      guard_state.
Qed.

Lemma _transfer_file_get_eq (file1 file2 : string) (st : state) :
  let raw := transport (quiet_env (env st)) (Get file1 file2) in
  _transfer_file (fabric_get transport) file1 file2 st
  = (transfer_guard file1 file2 raw,
     after_guard (Get file1 file2) (transfer_guard_log file1 file2 raw) st).
Proof.
  destruct st as [e hid lg cs].
  cbv beta zeta.
  unfold _transfer_file, try_except, bind, with_quiet_hide, fabric_get, request.
  cbn [env hidden log calls with_env with_hidden with_call].
  fold (quiet_env e).
  destruct (transport (quiet_env e) (Get file1 file2)) as [r | exc];
    cbn [transfer_guard transfer_guard_log].
  - destruct (failed r); guard_state.
  - destruct (isinstance_Exception exc); [| destruct (isinstance_SystemExit exc)];
      guard_state.
Qed.

Lemma _transfer_file_put_eq (file1 file2 : string) (st : state) :
  let raw := transport (quiet_env (env st)) (Put file1 file2) in
  _transfer_file (fabric_put transport) file1 file2 st
  = (transfer_guard file1 file2 raw,
     after_guard (Put file1 file2) (transfer_guard_log file1 file2 raw) st).
Proof.
  destruct st as [e hid lg cs].
  cbv beta zeta.
  unfold _transfer_file, try_except, bind, with_quiet_hide, fabric_put, request.
  cbn [env hidden log calls with_env with_hidden with_call].
  fold (quiet_env e).
  destruct (transport (quiet_env e) (Put file1 file2)) as [r | exc];
    cbn [transfer_guard transfer_guard_log].
  - destruct (failed r); guard_state.
  - destruct (isinstance_Exception exc); [| destruct (isinstance_SystemExit exc)];
      guard_state.
Qed.

End GuardEquations.

(** ** Fabric's dispatch over a task that behaves like a guard *)

Lemma after_hosts_cons (c : call) (w : fabric_env -> list log_record)
      (h : string) (hosts : list string) (st : state) :
  after_hosts c w hosts (after_hosts c w [h] st) = after_hosts c w (h :: hosts) st.
Proof.
  destruct st as [e hid lg cs]. unfold after_hosts.
  cbn [env hidden log calls map concat].
  now rewrite app_nil_r, <- !app_assoc.
Qed.

Lemma after_hosts_nil (c : call) (w : fabric_env -> list log_record) (st : state) :
  after_hosts c w [] st = st.
Proof.
  destruct st as [e hid lg cs]. unfold after_hosts.
  cbn [env hidden log calls map concat]. now rewrite !app_nil_r.
Qed.

Section Dispatch.

Context {A : Type}.
Variable task : M A.
Variable c : call.
Variable g : fabric_env -> outcome A.
Variable w : fabric_env -> list log_record.

Hypothesis task_eq :
  forall st, task st = (g (env st), after_guard c (w (env st)) st).

Lemma run_on_host_eq (host : string) (st : state) :
  run_on_host task host st
  = ((host, g (set_host_string (Some host) (env st))),
     after_hosts c w [host] st).
Proof.
  unfold run_on_host. rewrite task_eq.
  destruct st as [e hid lg cs].
  unfold after_hosts, after_guard, with_env.
  cbn [env hidden log calls map concat].
  rewrite set_host_string_restore, app_nil_r.
  destruct e; reflexivity.
Qed.

Lemma in_child_eq (host : string) (st : state) :
  in_child task host st
  = ((host, g (set_host_string (Some host) (env st))),
     after_hosts c w [host] st).
Proof.
  unfold in_child. rewrite task_eq.
  destruct st as [e hid lg cs].
  unfold after_hosts, after_guard, with_env.
  cbn [env hidden log calls map concat].
  rewrite app_nil_r. destruct e; reflexivity.
Qed.

Lemma run_serial_eq (hosts : list string) (st : state) :
  run_serial task hosts st
  = (serial_outcome g hosts (env st),
     after_hosts c w (serial_asked g hosts (env st)) st).
Proof.
  revert st. induction hosts as [| host rest IH]; intros st.
  - cbn [run_serial serial_outcome serial_asked]. now rewrite after_hosts_nil.
  - cbn [run_serial serial_outcome serial_asked]. rewrite run_on_host_eq.
    destruct (g (set_host_string (Some host) (env st))) as [r | e];
      [| reflexivity].
    rewrite IH. change (env (after_hosts c w [host] st)) with (env st).
    rewrite after_hosts_cons.
    destruct (serial_outcome g rest (env st)); reflexivity.
Qed.

Lemma run_children_eq (hosts : list string) (st : state) :
  run_children task hosts st
  = (entries_of g hosts (env st), after_hosts c w hosts st).
Proof.
  revert st. induction hosts as [| host rest IH]; intros st.
  - cbn [run_children entries_of map]. now rewrite after_hosts_nil.
  - cbn [run_children]. rewrite in_child_eq, IH.
    change (env (after_hosts c w [host] st)) with (env st).
    now rewrite after_hosts_cons.
Qed.

Lemma run_parallel_eq (hosts : list string) (st : state) :
  run_parallel task hosts st
  = (parallel_outcome (entries_of g hosts (env st)) (warn_only (env st)),
     after_hosts c w hosts st).
Proof.
  unfold run_parallel, parallel_outcome. rewrite run_children_eq.
  now destruct (forallb succeeded _ || warn_only (env st))%bool.
Qed.

End Dispatch.

(** ** What a call of a public method amounts to *)

Section Calls.

Variable transport : fabric_env -> call -> outcome result.
Variable self : HeadlessFabric.

Lemma guard_eq (i : invocation) (st : state) :
  match i with
  | Execute command _ => _run_fabric_command transport command
  | GetFile _ remote_file local_file =>
      _transfer_file (fabric_get transport) remote_file local_file
  | PutFile _ local_file remote_file =>
      _transfer_file (fabric_put transport) local_file remote_file
  end st
  = (answer_of transport i (env st),
     after_guard (request_of i) (warnings_by transport i (env st)) st).
Proof.
  destruct i; unfold answer_of, warnings_by; cbn [guard_of guard_log_of request_of].
  - apply _run_fabric_command_eq.
  - apply _transfer_file_get_eq.
  - apply _transfer_file_put_eq.
Qed.

(** A call, with Fabric's dispatch and the guard read off: the exception
    it raises or the mapping it returns, and the state it leaves. *)
Lemma invoke_eq (i : invocation) (st : state) :
  invoke transport self i st
  = match visited i with
    | Refused => (Raise list_has_no_strip, with_log (entry_record i) st)
    | LocalOnly =>
        (match answer_of transport i (env st) with
         | Ok r => Ok [("<local-only>", Ok r)]
         | Raise e => Raise e
         end,
         after_guard (request_of i) (warnings_by transport i (env st))
                     (with_log (entry_record i) st))
    | Hosts hosts =>
        if parallel (env st) then
          (parallel_outcome (entries_of (answer_of transport i) hosts (env st))
                            (warn_only (env st)),
           after_hosts (request_of i) (warnings_by transport i) hosts
                       (with_log (entry_record i) st))
        else
          (serial_outcome (answer_of transport i) hosts (env st),
           after_hosts (request_of i) (warnings_by transport i)
                       (serial_asked (answer_of transport i) hosts (env st))
                       (with_log (entry_record i) st))
    end.
Proof.
  pose proof (guard_eq i) as G.
  destruct i as [command host_list | host remote_file local_file
                 | host local_file remote_file];
    unfold invoke, execute, get_file, put_file, bind, LOG_info, fabric_execute;
    cbn [entry_record visited];
    [ destruct host_list as [| h rest]
    | destruct host as [h | hs]
    | destruct host as [h | hs] ];
    try reflexivity;
    change (parallel (env (with_log ?r st))) with (parallel (env st));
    try (destruct (parallel (env st));
         [ rewrite (run_parallel_eq _ _ _ _ G)
         | rewrite (run_serial_eq _ _ _ _ G) ];
         reflexivity).
  rewrite G. cbn [env with_log].
  destruct (answer_of transport (Execute command []) (env st)); reflexivity.
Qed.

Lemma invoke_env (i : invocation) (st : state) :
  env (snd (invoke transport self i st)) = env st.
Proof.
  rewrite invoke_eq.
  destruct (visited i); [reflexivity | reflexivity |].
  destruct (parallel (env st)); reflexivity.
Qed.

End Calls.

(** ** Substrings *)









(** [str_int] prints a status code as Python does. *)
Example str_int_127 : str_int 127 = "127".
Proof. reflexivity. Qed.

Example str_int_0 : str_int 0 = "0".
Proof. reflexivity. Qed.

Example str_int_minus_9 : str_int (-9) = "-9".
Proof. reflexivity. Qed.



(** ** What leaves a guard *)

Lemma guard_of_not_SystemExit (i : invocation) (raw : outcome result) (e : py_exn) :
  guard_of i raw = Raise e -> exn_cls e <> SystemExit.
Proof.
  destruct i, raw as [r | [cls s]]; cbn [guard_of run_guard transfer_guard];
    try (destruct (failed r); intros [= <-]; discriminate);
    destruct cls; cbn; intros [= <-]; discriminate.
Qed.

Lemma guard_of_LookupError (i : invocation) (raw : outcome result) (e : py_exn) :
  guard_of i raw = Raise e -> exn_cls e = LookupError ->
  exists exc, raw = Raise exc /\ isinstance_SystemExit exc = true.
Proof.
  destruct i, raw as [r | [cls s]]; cbn [guard_of run_guard transfer_guard];
    try (destruct (failed r); intros [= <-]; discriminate);
    destruct cls; cbn; intros [= <-]; try discriminate;
    intros _; eexists; split; reflexivity.
Qed.

Lemma guard_of_prompt (i : invocation) (exc : py_exn) :
  isinstance_SystemExit exc = true ->
  guard_of i (Raise exc)
  = Raise (Exn LookupError
             (match i with
              | Execute command _ =>
                  "Remote command " ++ command
                  ++ " failed because a user prompt was needed: " ++ exn_str exc
              | GetFile _ file1 file2 | PutFile _ file1 file2 =>
                  "File transfer (" ++ file1 ++ " - " ++ file2
                  ++ ") failed because a user prompt was needed: " ++ exn_str exc
              end)).
Proof.
  destruct exc as [cls s]. destruct cls; cbn; try discriminate.
  intros _. now destruct i.
Qed.

(** * The claims *)

(** ** Prompts (C1) *)

(** C1, at an input where the code departs from it.  After
    [HeadlessFabric()], let the transport fall back to a prompt for the
    single host of a call.  The guard traps the [SystemExit], logs its
    warning and raises the [LookupError] in the child; Fabric's [execute]
    then aborts in the parent, and what leaves [execute], [get_file] and
    [put_file] is [SystemExit(1)]. *)
Lemma prompt_ends_the_call_with_SystemExit :
  fst (execute prompts instance "ls" ["web1"] constructed)
  = Raise (Exn SystemExit "1")
  /\ fst (get_file prompts instance (HostStr "web1") "example.out" "local.out"
                    constructed)
     = Raise (Exn SystemExit "1")
  /\ fst (put_file prompts instance (HostStr "web1") "local.out" "example.out"
                    constructed)
     = Raise (Exn SystemExit "1")
  /\ In (warning "Remote command ls failed because a user prompt was needed: 1")
        (log (snd (execute prompts instance "ls" ["web1"] constructed))).
Proof.
  repeat split; try (vm_compute; reflexivity).
  vm_compute. right. right. left. reflexivity.
Qed.

(** ** The three failure shapes (C2) *)

(** C2 as stated fails: a command that ends with status 1 and a host that
    cannot be reached both leave the guard as a [RuntimeError], one class
    for the two shapes; and when the transport's error text reads like a
    failed command, they are one and the same exception, class and text. *)
Lemma exit_status_and_transport_error_surface_alike :
  fst (_run_fabric_command exits_with_1 "ls" constructed)
  = Raise (Exn RuntimeError
               "Remote command ls failed because 'Remote command 'ls' failed with status code 1: boom'")
  /\ fst (_run_fabric_command unreachable "ls" constructed)
     = Raise (Exn RuntimeError "Remote command ls failed because 'timed out'")
  /\ fst (_run_fabric_command fails_like_exit_1 "ls" constructed)
     = Raise (Exn RuntimeError
                  "Remote command ls failed because 'Remote command 'ls' failed with status code 1: boom'").
Proof. repeat split; vm_compute; reflexivity. Qed.

(** C2, as the code has it.  The guard around the transport call of each
    public method decides by how the transport answered: a result that is
    not [failed] is returned as it is; a [failed] result and any exception
    derived from [Exception] both become a [RuntimeError]; a [SystemExit]
    (an attempted prompt) becomes a [LookupError]; any other exception
    passes unchanged.  So the three shapes come out under two classes. *)
Theorem failures_surface_under_two_classes
        (transport : fabric_env -> call -> outcome result)
        (i : invocation) (st : state) :
  let guarded :=
    fst (match i with
         | Execute command _ => _run_fabric_command transport command
         | GetFile _ remote_file local_file =>
             _transfer_file (fabric_get transport) remote_file local_file
         | PutFile _ local_file remote_file =>
             _transfer_file (fabric_put transport) local_file remote_file
         end st) in
  match transport (quiet_env (env st)) (request_of i) with
  | Ok r =>
      if failed r then exists msg, guarded = Raise (Exn RuntimeError msg)
      else guarded = Ok r
  | Raise exc =>
      if isinstance_Exception exc then
        exists msg, guarded = Raise (Exn RuntimeError msg)
      else if isinstance_SystemExit exc then
        exists msg, guarded = Raise (Exn LookupError msg)
      else guarded = Raise exc
  end.
Proof.
  cbv zeta. rewrite guard_eq. cbn [fst]. unfold answer_of.
  destruct (transport (quiet_env (env st)) (request_of i)) as [r | exc];
    destruct i; cbn [guard_of run_guard transfer_guard];
    try (destruct (failed r); [eexists |]; reflexivity);
    (destruct (isinstance_Exception exc);
     [| destruct (isinstance_SystemExit exc)];
     [eexists; reflexivity | eexists; reflexivity | reflexivity]).
Qed.

(** ** Non-zero exit (C3) *)

(** C3, at an input where the code departs from it.  After
    [HeadlessFabric()], run a command that ends with status 1 on a host
    that is reached.  The guard logs and raises its [RuntimeError] with the
    status and the output in the child; what [execute] hands to the caller
    is Fabric's [SystemExit(1)], which holds neither. *)
Lemma nonzero_exit_ends_the_call_with_SystemExit :
  fst (execute exits_with_1 instance "ls" ["web1"] constructed)
  = Raise (Exn SystemExit "1")
  /\ In (warning "Remote command ls failed because 'Remote command 'ls' failed with status code 1: boom'")
        (log (snd (execute exits_with_1 instance "ls" ["web1"] constructed)))
  /\ calls (snd (execute exits_with_1 instance "ls" ["web1"] constructed))
     = [(Some "web1", Run "ls")].
Proof.
  repeat split; try (vm_compute; reflexivity).
  vm_compute. do 3 right. left. reflexivity.
Qed.

(** ** An empty host list (C4) *)

(** C4 as stated fails: with an empty host list [execute] does not raise
    an invalid-argument error.  The command is run once with no host bound;
    the transport has to prompt for a host, and what the caller gets is the
    prompt-required [LookupError] of the guard. *)
Lemma execute_with_no_hosts_runs_the_command :
  execute needs_a_host instance "ls" [] constructed
  = (Raise (Exn LookupError
                "Remote command ls failed because a user prompt was needed: 1"),
     State (env constructed) []
           (log constructed
            ++ [LogRecord INFO "Executing remote command '%s' on hosts %s"
                          [PStr "ls"; PList []];
                warning "Remote command ls failed because a user prompt was needed: 1"])%list
           [(None, Run "ls")]).
Proof. vm_compute. reflexivity. Qed.

(** C4, as the code has it.  For every command, [execute] with an empty
    host list logs the call and runs the guarded command once with no host
    bound.  When the transport then falls back to a prompt, the call
    returns no mapping: it raises the guard's [LookupError] to the caller,
    having logged its warning.  No error is raised for the empty list as
    such. *)
Theorem execute_with_no_hosts_is_not_refused
        (transport : fabric_env -> call -> outcome result)
        (self : HeadlessFabric) (command : string) (st : state) (exc : py_exn) :
  transport (quiet_env (env st)) (Run command) = Raise exc ->
  isinstance_SystemExit exc = true ->
  execute transport self command [] st
  = (Raise (Exn LookupError
                ("Remote command " ++ command
                 ++ " failed because a user prompt was needed: " ++ exn_str exc)),
     State (env st) (hidden st)
           (log st
            ++ [LogRecord INFO "Executing remote command '%s' on hosts %s"
                          [PStr command; PList []];
                LogRecord WARNING
                          ("Remote command " ++ command
                           ++ " failed because a user prompt was needed: "
                           ++ exn_str exc) []])%list
           (calls st ++ [(host_string (env st), Run command)])%list).
Proof.
  intros T S.
  pose proof (invoke_eq transport self (Execute command []) st) as E.
  cbn [invoke visited] in E. rewrite E.
  unfold answer_of, warnings_by. cbn [request_of]. rewrite T.
  rewrite (guard_of_prompt (Execute command []) exc S).
  destruct exc as [cls s]. destruct cls; try discriminate.
  unfold after_guard. cbn. now rewrite <- app_assoc.
Qed.

Lemma execute_with_no_hosts_is_not_refused_witness :
  execute needs_a_host instance "ls" [] fresh
  = (Raise (Exn LookupError
                ("Remote command " ++ "ls"
                 ++ " failed because a user prompt was needed: " ++ "1")),
     State fresh_env []
           ([]
            ++ [LogRecord INFO "Executing remote command '%s' on hosts %s"
                          [PStr "ls"; PList []];
                LogRecord WARNING
                          ("Remote command " ++ "ls"
                           ++ " failed because a user prompt was needed: "
                           ++ "1") []])%list
           ([] ++ [(None, Run "ls")])%list).
Proof.
  apply (execute_with_no_hosts_is_not_refused
           needs_a_host instance "ls" fresh (Exn SystemExit "1")).
  - reflexivity.
  - reflexivity.
Defined.

(** ** A host list where one host is expected (C5) *)

(** C5 as stated fails in the kind of the error: neither transfer method
    looks at its [host] argument, and the wrapper has no invalid-argument
    error.  What a list of two hosts meets is the [AttributeError] of
    Fabric's host cleaning, which reaches the caller as it is, unlogged;
    no request has been made. *)
Lemma transfer_with_two_hosts_meets_fabrics_AttributeError :
  get_file succeeds instance (HostList ["web1"; "web2"])
           "example.out" "local.out" constructed
  = (Raise (Exn (OtherException "AttributeError")
                "'list' object has no attribute 'strip'"),
     State (env constructed) []
           (log constructed
            ++ [LogRecord INFO "Transferring file %s on %s to local location %s"
                          [PStr "example.out"; PList ["web1"; "web2"];
                           PStr "local.out"]])%list
           [])
  /\ put_file succeeds instance (HostList ["web1"; "web2"])
              "local.out" "example.out" constructed
     = (Raise (Exn (OtherException "AttributeError")
                   "'list' object has no attribute 'strip'"),
        State (env constructed) []
              (log constructed
               ++ [LogRecord INFO "Transferring local file %s to %s on host %s"
                             [PStr "local.out"; PStr "example.out";
                              PList ["web1"; "web2"]]])%list
              []).
Proof. split; vm_compute; reflexivity. Qed.

(** C5, as the code has it.  For every call of [get_file] or [put_file]
    whose host argument is a list, of whatever length, the call logs its
    line and ends with the [AttributeError] Fabric raises for the list,
    before any request to the transport: no request is on record, no
    warning is logged, and [env] is as before. *)
Theorem transfer_host_list_is_refused_by_fabric
        (transport : fabric_env -> call -> outcome result)
        (self : HeadlessFabric) (hs : list string) (file1 file2 : string)
        (st : state) :
  get_file transport self (HostList hs) file1 file2 st
  = (Raise (Exn (OtherException "AttributeError")
                "'list' object has no attribute 'strip'"),
     State (env st) (hidden st)
           (log st
            ++ [LogRecord INFO "Transferring file %s on %s to local location %s"
                          [PStr file1; PList hs; PStr file2]])%list
           (calls st))
  /\ put_file transport self (HostList hs) file1 file2 st
     = (Raise (Exn (OtherException "AttributeError")
                   "'list' object has no attribute 'strip'"),
        State (env st) (hidden st)
              (log st
               ++ [LogRecord INFO "Transferring local file %s to %s on host %s"
                             [PStr file1; PStr file2; PList hs]])%list
              (calls st)).
Proof.
  pose proof (invoke_eq transport self (GetFile (HostList hs) file1 file2) st) as G.
  pose proof (invoke_eq transport self (PutFile (HostList hs) file1 file2) st) as U.
  cbn [invoke visited] in G, U. rewrite G, U. split; reflexivity.
Qed.

(** ** The policy is not touched by the operations (C6) *)

(** C6.  Whatever the call of [execute], [get_file] or [put_file], and
    however it ends for each host, Fabric's [env] is afterwards what it was
    before: in particular the connection attempts, the two timeouts, the
    key restriction and the gateway.  The bindings made for the duration of
    a request ([warn_only], the hidden output groups, the host) are undone. *)
Theorem operations_leave_the_policy_alone
        (transport : fabric_env -> call -> outcome result)
        (self : HeadlessFabric) (i : invocation) (st : state) :
  let st' := snd (invoke transport self i st) in
  env st' = env st
  /\ policy_in_force (env st') = policy_in_force (env st)
  /\ hidden st' = hidden st.
Proof.
  cbv zeta. rewrite invoke_eq.
  destruct (visited i) as [| | hosts];
    [| | destruct (parallel (env st))]; cbn; repeat split; reflexivity.
Qed.

(** ** The constructor and the shared [env] (C7, C8) *)

(** Everything [__init__] does, from any state: it returns an instance that
    holds nothing, logs one line, makes no request to the transport, and
    writes [env].  The numeric settings, the three flags, the gateway and
    [use_ssh_config] are written always; the key settings only for a key
    file that is given, and are otherwise left as found. *)
Lemma __init___effect (a : init_args) (st : state) :
  let st' := snd (__init__ a st) in
  fst (__init__ a st) = Ok instance
  /\ connection_attempts (env st') = kwarg 3 (arg_conn_attempts a)
  /\ command_timeout (env st') = kwarg 120 (arg_cmd_timeout a)
  /\ timeout (env st') = kwarg 120 (arg_net_timeout a)
  /\ abort_on_prompts (env st') = true
  /\ skip_bad_hosts (env st') = true
  /\ parallel (env st') = true
  /\ gateway (env st') = arg_gateway a
  /\ use_ssh_config (env st') = true
  /\ no_keys (env st')
     = (if truthy (arg_key_file a) then true else no_keys (env st))
  /\ key_filename (env st')
     = (if truthy (arg_key_file a) then arg_key_file a else key_filename (env st))
  /\ calls st' = calls st
  /\ hidden st' = hidden st
  /\ exists args,
      log st' = (log st ++ [LogRecord INFO
                                      ("Initializing Fabric with conn_attempts=%d, cmd_timeout=%d, net_timeout=%d, "
                                       ++ "key_file=%s, gateway=%s")
                                      args])%list.
Proof.
  destruct st as [e hid lg cs], a as [ca ct nt kf gw].
  unfold __init__, bind, setenv, LOG_info, ret.
  cbn [arg_conn_attempts arg_cmd_timeout arg_net_timeout arg_key_file arg_gateway].
  destruct (truthy kf); cbn; repeat split; eexists; reflexivity.
Qed.

(** The defaults of the constructor. *)
Lemma policy_asked_by_default :
  policy_asked no_args = Policy 3 120 120 None None.
Proof. reflexivity. Qed.

(** C7, at the input where the code departs from it: construct one
    instance with a key file and then a second without one.  The
    constructor writes the key settings only under [if key_file:], so the
    policy in force afterwards still restricts authentication to the first
    instance's key, which the second constructor was not given. *)
Lemma second_constructor_without_key_keeps_the_first_key :
  policy_in_force (env (snd (__init__ no_args (snd (__init__ with_key fresh)))))
  = Policy 3 120 120 (Some "id_rsa") None
  /\ policy_asked no_args = Policy 3 120 120 None None
  /\ policy_in_force (env (snd (__init__ no_args (snd (__init__ with_key fresh)))))
     <> policy_asked no_args.
Proof. repeat split; try reflexivity. vm_compute. discriminate. Qed.

(** C8, at the input where the code departs from it: after an instance
    with a key file, an instance constructed with no argument at all leaves
    default key discovery disabled and the first instance's key in place,
    although no key file was given to it. *)
Lemma constructor_without_key_leaves_discovery_disabled :
  no_keys (env (snd (__init__ no_args (snd (__init__ with_key fresh))))) = true
  /\ key_filename (env (snd (__init__ no_args (snd (__init__ with_key fresh)))))
     = Some "id_rsa"
  /\ arg_key_file no_args = None.
Proof. repeat split. Qed.

(** ** What an error carries (C9) *)





(** ** Upload and download (C10) *)

Lemma warnings_of_app (l1 l2 : list log_record) :
  warnings_of (l1 ++ l2)%list = (warnings_of l1 ++ warnings_of l2)%list.
Proof. apply filter_app. Qed.

Lemma map_fst_calls (c1 c2 : call) (hosts : list string) :
  map fst (map (fun h : string => (Some h, c1)) hosts)
  = map fst (map (fun h : string => (Some h, c2)) hosts).
Proof. now rewrite !map_map. Qed.

(** C10.  [put_file] and [get_file] are the same delegation to
    [_transfer_file] through Fabric's [execute], with [put] in one and
    [get] in the other and the two paths passed in the order given (source
    first: the local file for an upload, the remote file for a download).
    Hence an upload over a transport, and a download over the transport
    that answers downloads as the first answers uploads, end alike for
    every host, path pair and state: same mapping (same results, same
    errors, class and text), same warnings, same [env], same hosts
    contacted. *)
Theorem put_file_mirrors_get_file
        (transport : fabric_env -> call -> outcome result)
        (self : HeadlessFabric) (host : host_arg) (file1 file2 : string)
        (st : state) :
  let up := put_file transport self host file1 file2 st in
  let down := get_file (swap_transfers transport) self host file1 file2 st in
  put_file transport self host file1 file2
  = (LOG_info "Transferring local file %s to %s on host %s"
              [PStr file1; PStr file2; pyval_of_host host] ;;
     fabric_execute (_transfer_file (fabric_put transport) file1 file2)
                    (KwHost host))
  /\ get_file transport self host file1 file2
     = (LOG_info "Transferring file %s on %s to local location %s"
                 [PStr file1; pyval_of_host host; PStr file2] ;;
        fabric_execute (_transfer_file (fabric_get transport) file1 file2)
                       (KwHost host))
  /\ fst up = fst down
  /\ warnings_of (log (snd up)) = warnings_of (log (snd down))
  /\ env (snd up) = env (snd down)
  /\ map fst (calls (snd up)) = map fst (calls (snd down)).
Proof.
  cbv zeta. split; [reflexivity |]. split; [reflexivity |].
  pose proof (invoke_eq transport self (PutFile host file1 file2) st) as U.
  pose proof (invoke_eq (swap_transfers transport) self
                        (GetFile host file1 file2) st) as D.
  cbn [invoke] in U, D. rewrite U, D.
  change (visited (GetFile host file1 file2))
    with (visited (PutFile host file1 file2)).
  change (answer_of (swap_transfers transport) (GetFile host file1 file2))
    with (answer_of transport (PutFile host file1 file2)).
  change (warnings_by (swap_transfers transport) (GetFile host file1 file2))
    with (warnings_by transport (PutFile host file1 file2)).
  destruct (visited (PutFile host file1 file2)) as [| | hosts];
    [| | destruct (parallel (env st))];
    cbn [fst snd after_guard after_hosts with_log env hidden log calls request_of];
    repeat split;
    rewrite ?warnings_of_app, ?map_app, ?map_fst_calls with (c2 := Get file1 file2);
    reflexivity.
Qed.

(** * Further properties of the code *)

(** ** The guards on their own *)

(** A command that fails is reported twice.  The [RuntimeError] raised for
    the failed result inside the [try] is caught by the [except Exception]
    clause of the same [try]: the guard logs the status line, then logs and
    raises a second [RuntimeError] that quotes the first.  One request was
    made, and [env] and the hidden groups are as before. *)
Theorem failed_command_is_wrapped_and_logged_twice
        (transport : fabric_env -> call -> outcome result)
        (command : string) (st : state) (r : result) :
  transport (quiet_env (env st)) (Run command) = Ok r ->
  failed r = true ->
  _run_fabric_command transport command st
  = (Raise (Exn RuntimeError
                ("Remote command " ++ command ++ " failed because '"
                 ++ ("Remote command '" ++ command ++ "' failed with status code "
                     ++ str_int (return_code r) ++ ": " ++ output r)
                 ++ "'")),
     State (env st) (hidden st)
           (log st
            ++ [LogRecord WARNING
                          ("Remote command '" ++ command
                           ++ "' failed with status code "
                           ++ str_int (return_code r) ++ ": " ++ output r) [];
                LogRecord WARNING
                          ("Remote command " ++ command ++ " failed because '"
                           ++ ("Remote command '" ++ command
                               ++ "' failed with status code "
                               ++ str_int (return_code r) ++ ": " ++ output r)
                           ++ "'") []])%list
           (calls st ++ [(host_string (env st), Run command)])%list).
Proof.
  intros T F. rewrite _run_fabric_command_eq. cbv zeta. rewrite T.
  cbn [run_guard run_guard_log]. rewrite F. reflexivity.
Qed.

Lemma failed_command_is_wrapped_and_logged_twice_witness :
  _run_fabric_command exits_with_1 "ls" fresh
  = (Raise (Exn RuntimeError
                ("Remote command " ++ "ls" ++ " failed because '"
                 ++ ("Remote command '" ++ "ls" ++ "' failed with status code "
                     ++ str_int 1 ++ ": " ++ "boom")
                 ++ "'")),
     State fresh_env []
           ([]
            ++ [LogRecord WARNING
                          ("Remote command '" ++ "ls"
                           ++ "' failed with status code "
                           ++ str_int 1 ++ ": " ++ "boom") [];
                LogRecord WARNING
                          ("Remote command " ++ "ls" ++ " failed because '"
                           ++ ("Remote command '" ++ "ls"
                               ++ "' failed with status code "
                               ++ str_int 1 ++ ": " ++ "boom")
                           ++ "'") []])%list
           ([] ++ [(None, Run "ls")])%list).
Proof.
  apply (failed_command_is_wrapped_and_logged_twice
           exits_with_1 "ls" fresh (Result true 1 "boom")).
  - reflexivity.
  - reflexivity.
Defined.

(** [_transfer_file] around any transfer function that returns what
    [get] and [put] return.  Whatever the function does, the guard restores
    [warn_only] and the hidden output groups to what they were on entry,
    and never lets a [SystemExit] out.  A result that is not [failed] is
    returned as it is, and nothing is logged for it.  For a [failed] one
    the status line is never written: reading [return_code] off the list
    is an [AttributeError], which the guard's own [except Exception] turns
    into the [RuntimeError] it logs, once, and raises. *)
Theorem _transfer_file_around_any_transfer
        (transfer_func : string -> string -> M result)
        (file1 file2 : string) (st : state) :
  let inside :=
    with_hidden ("output" :: "running" :: "warnings" :: "everything" :: hidden st)
                (with_env (set_warn_only true) st) in
  let done := _transfer_file transfer_func file1 file2 st in
  warn_only (env (snd done)) = warn_only (env st)
  /\ hidden (snd done) = hidden st
  /\ (forall e, fst done = Raise e -> exn_cls e <> SystemExit)
  /\ (forall r,
         fst (transfer_func file1 file2 inside) = Ok r -> failed r = false ->
         fst done = Ok r
         /\ log (snd done) = log (snd (transfer_func file1 file2 inside)))
  /\ (forall r,
         fst (transfer_func file1 file2 inside) = Ok r -> failed r = true ->
         fst done
         = Raise (Exn RuntimeError
                      ("File transfer (" ++ file1 ++ " - " ++ file2
                       ++ ") failed because: "
                       ++ "'_AttributeList' object has no attribute 'return_code'"))
         /\ log (snd done)
            = (log (snd (transfer_func file1 file2 inside))
               ++ [LogRecord WARNING
                             ("File transfer (" ++ file1 ++ " - " ++ file2
                              ++ ") failed because: "
                              ++ "'_AttributeList' object has no attribute 'return_code'")
                             []])%list).
Proof.
  cbv zeta.
  unfold _transfer_file, try_except, bind, with_quiet_hide, return_code_of_transfer.
  destruct (transfer_func file1 file2 _) as [[r | exc] s1] eqn:E.
  - destruct (failed r) eqn:F; cbn [fst snd];
      (split; [reflexivity |]); (split; [reflexivity |]);
      (split; [intros e; cbn; intros [= <-]; discriminate |]);
      split; intros r' [= <-] F'; try congruence; split; reflexivity.
  - destruct exc as [cls s]. destruct cls; cbn [fst snd];
      (split; [reflexivity |]); (split; [reflexivity |]);
      (split; [intros e; cbn; intros [= <-]; discriminate |]);
      split; intros r' [=].
Qed.

Lemma _transfer_file_around_any_transfer_witness :
  fst (_transfer_file (fabric_put exits_with_1) "local.out" "example.out" fresh)
  = Raise (Exn RuntimeError
               ("File transfer (" ++ "local.out" ++ " - " ++ "example.out"
                ++ ") failed because: "
                ++ "'_AttributeList' object has no attribute 'return_code'"))
  /\ log (snd (_transfer_file (fabric_put exits_with_1) "local.out" "example.out"
                              fresh))
     = ([] ++ [LogRecord WARNING
                         ("File transfer (" ++ "local.out" ++ " - " ++ "example.out"
                          ++ ") failed because: "
                          ++ "'_AttributeList' object has no attribute 'return_code'")
                         []])%list.
Proof.
  destruct (_transfer_file_around_any_transfer
              (fabric_put exits_with_1) "local.out" "example.out" fresh)
    as (_ & _ & _ & _ & F).
  apply (F (Result true 1 "boom")); reflexivity.
Defined.

(** ** Calls that name their hosts *)

Lemma concat_map_nil {A B : Type} (f : A -> list B) (l : list A) :
  (forall x, In x l -> f x = []) -> concat (map f l) = [].
Proof.
  induction l as [| x l IH]; intros H; cbn; [reflexivity |].
  rewrite (H x (or_introl eq_refl)). apply IH.
  intros y Y. apply H. now right.
Qed.

Lemma visited_targets (i : invocation) :
  targets i <> [] -> visited i = Hosts (all_hosts (targets i)).
Proof.
  destruct i as [command [| h rest] | [h | hs] a b | [h | hs] a b];
    cbn [targets visited]; intros N; try reflexivity; now elim N.
Qed.

Lemma guard_of_success (i : invocation) (r : result) :
  failed r = false -> guard_of i (Ok r) = Ok r /\ guard_log_of i (Ok r) = [].
Proof.
  intros F. destruct i; cbn; rewrite F; split; reflexivity.
Qed.

Lemma guard_of_failure (i : invocation) (raw : outcome result) :
  (forall r, raw = Ok r -> failed r = true) ->
  exists e, guard_of i raw = Raise e.
Proof.
  intros B. destruct raw as [r | exc].
  - pose proof (B r eq_refl) as F.
    destruct i; cbn; rewrite F; eexists; reflexivity.
  - destruct i; cbn;
      destruct (isinstance_Exception exc);
      try destruct (isinstance_SystemExit exc); eexists; reflexivity.
Qed.

Section Success.

Variable transport : fabric_env -> call -> outcome result.
Variable i : invocation.
Variable hosts : list string.
Variable e : fabric_env.

Hypothesis every_host_succeeds :
  forall h, In h hosts ->
            exists r, transport (bound_env h e) (request_of i) = Ok r
                      /\ failed r = false.

Lemma entries_of_success :
  entries_of (answer_of transport i) hosts e
  = map (fun h => (h, transport (bound_env h e) (request_of i))) hosts.
Proof.
  apply map_ext_in. intros h H.
  destruct (every_host_succeeds h H) as (r & T & F).
  unfold answer_of.
  change (quiet_env (set_host_string (Some h) e)) with (bound_env h e).
  rewrite T. f_equal. now apply guard_of_success.
Qed.

Lemma warnings_by_success :
  concat (map (fun h => warnings_by transport i (set_host_string (Some h) e)) hosts)
  = [].
Proof.
  apply concat_map_nil. intros h H.
  destruct (every_host_succeeds h H) as (r & T & F).
  unfold warnings_by.
  change (quiet_env (set_host_string (Some h) e)) with (bound_env h e).
  rewrite T. now apply guard_of_success.
Qed.

Lemma entries_all_succeeded :
  forallb succeeded (entries_of (answer_of transport i) hosts e) = true.
Proof.
  rewrite entries_of_success. apply forallb_forall.
  intros entry E. apply in_map_iff in E. destruct E as (h & <- & H).
  destruct (every_host_succeeds h H) as (r & T & _).
  unfold succeeded. cbn [snd]. now rewrite T.
Qed.

End Success.

Section SerialSuccess.

Context {A : Type}.
Variable g : fabric_env -> outcome A.
Variable e : fabric_env.

Lemma serial_outcome_success (hosts : list string) :
  forallb succeeded (entries_of g hosts e) = true ->
  serial_outcome g hosts e = Ok (entries_of g hosts e)
  /\ serial_asked g hosts e = hosts.
Proof.
  induction hosts as [| h rest IH]; [now split |].
  unfold entries_of. cbn [map forallb serial_outcome serial_asked].
  unfold succeeded at 1. cbn [snd].
  destruct (g (set_host_string (Some h) e)) as [r | exc]; [| discriminate].
  cbn [andb]. intros S. destruct (IH S) as [O K].
  rewrite O, K. now split.
Qed.

End SerialSuccess.

(** The whole state after a call over [hosts] all of which succeeded. *)
Lemma invoke_success (transport : fabric_env -> call -> outcome result)
      (self : HeadlessFabric) (i : invocation) (st : state) :
  targets i <> [] ->
  (forall h, In h (all_hosts (targets i)) ->
             exists r, transport (bound_env h (env st)) (request_of i) = Ok r
                       /\ failed r = false) ->
  invoke transport self i st
  = (Ok (map (fun h => (h, transport (bound_env h (env st)) (request_of i)))
             (all_hosts (targets i))),
     State (env st) (hidden st) (log st ++ [entry_record i])%list
           (calls st
            ++ map (fun h => (Some h, request_of i)) (all_hosts (targets i)))%list).
Proof.
  intros N S. rewrite invoke_eq, (visited_targets i N).
  pose proof (entries_all_succeeded transport i _ (env st) S) as B.
  destruct (serial_outcome_success (answer_of transport i) (env st) _ B) as [O K].
  unfold parallel_outcome. rewrite O, K, B. cbn [orb].
  rewrite (entries_of_success transport i _ (env st) S).
  unfold after_hosts. cbn [env hidden log calls with_log].
  rewrite (warnings_by_success transport i _ (env st) S), app_nil_r.
  now destruct (parallel (env st)).
Qed.

(** When the transport answers every host the call visits with a result
    that is not [failed], the call returns the mapping from each of these
    hosts to the very result the transport returned for it.  The hosts
    visited are the hosts named, stripped and without duplicates.  Apart
    from the line the method logs on entry nothing is logged; each host
    visited was asked once; [env] and the hidden groups are untouched. *)
Theorem all_hosts_succeed
        (transport : fabric_env -> call -> outcome result)
        (self : HeadlessFabric) (i : invocation) (st : state) :
  targets i <> [] ->
  (forall h, In h (all_hosts (targets i)) ->
             exists r, transport (bound_env h (env st)) (request_of i) = Ok r
                       /\ failed r = false) ->
  let done := invoke transport self i st in
  fst done
  = Ok (map (fun h => (h, transport (bound_env h (env st)) (request_of i)))
            (all_hosts (targets i)))
  /\ log (snd done) = (log st ++ [entry_record i])%list
  /\ env (snd done) = env st
  /\ hidden (snd done) = hidden st
  /\ exists asked,
      calls (snd done) = (calls st ++ asked)%list
      /\ Permutation asked
                     (map (fun h => (Some h, request_of i)) (all_hosts (targets i))).
Proof.
  intros N S. cbv zeta. rewrite (invoke_success transport self i st N S).
  cbn [fst snd env hidden log calls]. repeat split.
  eexists. split; [reflexivity | apply Permutation_refl].
Qed.

Lemma all_hosts_succeed_witness :
  fst (invoke succeeds instance (Execute "ls" ["web1"; " web1 "; "web2"]) constructed)
  = Ok (map (fun h => (h, succeeds (bound_env h (env constructed)) (Run "ls")))
            (all_hosts ["web1"; " web1 "; "web2"])).
Proof.
  destruct (all_hosts_succeed succeeds instance
                              (Execute "ls" ["web1"; " web1 "; "web2"]) constructed)
    as (A & _).
  - discriminate.
  - intros h _. exists (Result false 0 "done"). split; reflexivity.
  - exact A.
Defined.

(** An exception of the transport that derives neither from [Exception]
    nor from [SystemExit] (a keyboard interrupt, say) is not caught by
    either [except] clause of a guard: the guard ends with that very
    exception, logs nothing, and leaves [env] and the hidden groups as they
    were; the one request it made is on record. *)
Theorem other_base_exceptions_pass_through
        (transport : fabric_env -> call -> outcome result)
        (i : invocation) (st : state) (exc : py_exn) :
  transport (quiet_env (env st)) (request_of i) = Raise exc ->
  isinstance_Exception exc = false ->
  isinstance_SystemExit exc = false ->
  match i with
  | Execute command _ => _run_fabric_command transport command
  | GetFile _ remote_file local_file =>
      _transfer_file (fabric_get transport) remote_file local_file
  | PutFile _ local_file remote_file =>
      _transfer_file (fabric_put transport) local_file remote_file
  end st
  = (Raise exc,
     State (env st) (hidden st) (log st)
           (calls st ++ [(host_string (env st), request_of i)])%list).
Proof.
  intros T X S. rewrite guard_eq. unfold answer_of, warnings_by, after_guard.
  rewrite T.
  destruct i; cbn [guard_of guard_log_of run_guard run_guard_log
                   transfer_guard transfer_guard_log];
    rewrite X, S, app_nil_r; reflexivity.
Qed.

Lemma other_base_exceptions_pass_through_witness :
  _transfer_file (fabric_get interrupted) "example.out" "local.out" fresh
  = (Raise (Exn (OtherBaseException "KeyboardInterrupt") ""),
     State fresh_env [] []
           ([] ++ [(None, Get "example.out" "local.out")])%list).
Proof.
  apply (other_base_exceptions_pass_through
           interrupted (GetFile (HostStr "web1") "example.out" "local.out") fresh
           (Exn (OtherBaseException "KeyboardInterrupt") "")).
  - reflexivity.
  - reflexivity.
  - reflexivity.
Defined.

(** After a constructor has turned [env.parallel] on, a failure on any
    host the call visits (a failed result, or any exception of the
    transport) is not what the caller gets: the guard's error stays in the
    child, and the call ends with Fabric's [SystemExit(1)], unless
    [warn_only] is set in the parent.  The failing host was asked. *)
Theorem failure_in_parallel_mode_is_SystemExit
        (transport : fabric_env -> call -> outcome result)
        (self : HeadlessFabric) (i : invocation) (st : state) (h : string) :
  parallel (env st) = true ->
  warn_only (env st) = false ->
  targets i <> [] ->
  In h (all_hosts (targets i)) ->
  (forall r, transport (bound_env h (env st)) (request_of i) = Ok r ->
             failed r = true) ->
  fst (invoke transport self i st) = Raise (Exn SystemExit "1")
  /\ In (Some h, request_of i) (calls (snd (invoke transport self i st))).
Proof.
  intros P W N H B. rewrite invoke_eq, (visited_targets i N), P.
  cbn [fst snd]. split.
  - unfold parallel_outcome. rewrite W, orb_false_r.
    destruct (forallb succeeded _) eqn:S; [| reflexivity].
    rewrite forallb_forall in S.
    destruct (guard_of_failure i _ B) as [e E].
    assert (K : In (h, Raise e)
                   (entries_of (answer_of transport i) (all_hosts (targets i))
                               (env st))).
    { unfold entries_of. apply in_map_iff. exists h. split; [| exact H].
      f_equal. unfold answer_of.
      change (quiet_env (set_host_string (Some h) (env st)))
        with (bound_env h (env st)).
      exact E. }
    specialize (S _ K). discriminate S.
  - unfold after_hosts. cbn [calls]. apply in_or_app. right.
    apply in_map_iff. now exists h.
Qed.

Lemma failure_in_parallel_mode_is_SystemExit_witness :
  fst (invoke unreachable instance (Execute "ls" ["web1"; "web2"]) constructed)
  = Raise (Exn SystemExit "1")
  /\ In (Some "web2", Run "ls")
        (calls (snd (invoke unreachable instance (Execute "ls" ["web1"; "web2"])
                            constructed))).
Proof.
  apply (failure_in_parallel_mode_is_SystemExit
           unreachable instance (Execute "ls" ["web1"; "web2"]) constructed "web2").
  - reflexivity.
  - reflexivity.
  - discriminate.
  - vm_compute. right. left. reflexivity.
  - intros r E. discriminate E.
Defined.

(** ** The constructor *)

(** What a construction does, from any state and for any arguments.  It
    returns, makes no request to the transport and logs one line at info
    level carrying the five settings.  In [env] it sets the connection
    attempts, command timeout and network timeout to the arguments (3, 120
    and 120 for those left out) and the gateway to the argument, and turns
    on [abort_on_prompts], [skip_bad_hosts], [parallel] and
    [use_ssh_config].  It binds no host and leaves [warn_only] alone. *)
Theorem constructor_configures_headless_mode (a : init_args) (st : state) :
  let st' := snd (__init__ a st) in
  fst (__init__ a st) = Ok instance
  /\ calls st' = calls st
  /\ log st'
     = (log st
        ++ [LogRecord INFO
                      "Initializing Fabric with conn_attempts=%d, cmd_timeout=%d, net_timeout=%d, key_file=%s, gateway=%s"
                      [PInt (kwarg 3 (arg_conn_attempts a));
                       PInt (kwarg 120 (arg_cmd_timeout a));
                       PInt (kwarg 120 (arg_net_timeout a));
                       pyval_of_opt (arg_key_file a);
                       pyval_of_opt (arg_gateway a)]])%list
  /\ connection_attempts (env st') = kwarg 3 (arg_conn_attempts a)
  /\ command_timeout (env st') = kwarg 120 (arg_cmd_timeout a)
  /\ timeout (env st') = kwarg 120 (arg_net_timeout a)
  /\ gateway (env st') = arg_gateway a
  /\ abort_on_prompts (env st') = true
  /\ skip_bad_hosts (env st') = true
  /\ parallel (env st') = true
  /\ use_ssh_config (env st') = true
  /\ host_string (env st') = host_string (env st)
  /\ warn_only (env st') = warn_only (env st).
Proof.
  destruct st as [e hid lg cs], a as [ca ct nt kf gw].
  unfold __init__, bind, setenv, LOG_info, ret.
  cbn [arg_conn_attempts arg_cmd_timeout arg_net_timeout arg_key_file arg_gateway].
  destruct (truthy kf); cbn; repeat split; reflexivity.
Qed.

(** Constructing twice with the same arguments configures [env] as
    constructing once does. *)
Theorem constructor_is_idempotent_on_env (a : init_args) (st : state) :
  env (snd (__init__ a (snd (__init__ a st)))) = env (snd (__init__ a st)).
Proof.
  destruct st as [e hid lg cs], a as [ca ct nt kf gw].
  unfold __init__, bind, setenv, LOG_info, ret.
  cbn [arg_conn_attempts arg_cmd_timeout arg_net_timeout arg_key_file arg_gateway].
  destruct (truthy kf); cbn; reflexivity.
Qed.

(** An empty string given as key file counts as no key file: [if key_file:]
    is false for it, so [env] ends up exactly as without the argument, and
    the key settings stay as they were. *)
Theorem empty_key_file_is_no_key_file
        (conn_attempts cmd_timeout net_timeout : option Z)
        (gateway : option string) (st : state) :
  let st' :=
    snd (__init__ (InitArgs conn_attempts cmd_timeout net_timeout (Some "") gateway)
                  st) in
  env st'
  = env (snd (__init__ (InitArgs conn_attempts cmd_timeout net_timeout None gateway)
                       st))
  /\ no_keys (env st') = no_keys (env st)
  /\ key_filename (env st') = key_filename (env st).
Proof.
  destruct st as [e hid lg cs]. cbv zeta.
  unfold __init__, bind, setenv, LOG_info, ret.
  cbn [arg_conn_attempts arg_cmd_timeout arg_net_timeout arg_key_file arg_gateway].
  change (truthy (Some "")) with false. change (truthy None) with false.
  cbn. split; [reflexivity | split; reflexivity].
Qed.

(** A key file that is given (not empty) decides the key settings whatever
    they were: default key discovery is off and the key is that file. *)
Theorem key_file_restricts_authentication
        (a : init_args) (st : state) (key : string) :
  arg_key_file a = Some key ->
  key <> "" ->
  no_keys (env (snd (__init__ a st))) = true
  /\ key_filename (env (snd (__init__ a st))) = Some key.
Proof.
  intros K N.
  destruct (__init___effect a st) as (_ & _ & _ & _ & _ & _ & _ & _ & _ & NK & KF & _).
  cbv zeta in NK, KF. rewrite NK, KF, K. cbn [truthy].
  apply String.eqb_neq in N. rewrite N. split; reflexivity.
Qed.

Lemma key_file_restricts_authentication_witness :
  no_keys (env (snd (__init__ with_key fresh))) = true
  /\ key_filename (env (snd (__init__ with_key fresh))) = Some "id_rsa".
Proof.
  apply (key_file_restricts_authentication with_key fresh "id_rsa").
  - reflexivity.
  - discriminate.
Defined.

(** In serial mode the first failure ends the call: the hosts before it
    were asked, in order, and succeeded; the failing host's guard raises,
    and that exception is what the caller gets; no host after it is asked,
    and the results of the hosts before it are not returned. *)
Section SerialFailure.

Context {A : Type}.
Variable g : fabric_env -> outcome A.
Variable e : fabric_env.

Lemma serial_first_failure (before after : list string) (h : string) (exc : py_exn) :
  forallb succeeded (entries_of g before e) = true ->
  g (set_host_string (Some h) e) = Raise exc ->
  serial_outcome g (before ++ h :: after) e = Raise exc
  /\ serial_asked g (before ++ h :: after) e = (before ++ [h])%list.
Proof.
  intros S F. induction before as [| k before IH].
  - cbn [app serial_outcome serial_asked]. rewrite F. now split.
  - revert S. unfold entries_of. cbn [map forallb app serial_outcome serial_asked].
    unfold succeeded at 1. cbn [snd].
    destruct (g (set_host_string (Some k) e)) as [r | x]; [| discriminate].
    cbn [andb]. intros S. destruct (IH S) as [O K]. rewrite O, K. now split.
Qed.

End SerialFailure.

Theorem first_failure_ends_the_call_in_serial_mode
        (transport : fabric_env -> call -> outcome result)
        (self : HeadlessFabric) (i : invocation) (st : state)
        (before after : list string) (h : string) :
  parallel (env st) = false ->
  targets i <> [] ->
  all_hosts (targets i) = (before ++ h :: after)%list ->
  (forall k, In k before ->
             exists r, transport (bound_env k (env st)) (request_of i) = Ok r
                       /\ failed r = false) ->
  (forall r, transport (bound_env h (env st)) (request_of i) = Ok r ->
             failed r = true) ->
  exists e,
    guard_of i (transport (bound_env h (env st)) (request_of i)) = Raise e
    /\ fst (invoke transport self i st) = Raise e
    /\ calls (snd (invoke transport self i st))
       = (calls st ++ map (fun k => (Some k, request_of i)) (before ++ [h]))%list.
Proof.
  intros P N V S B.
  destruct (guard_of_failure i _ B) as [e E]. exists e. split; [exact E |].
  rewrite invoke_eq, (visited_targets i N), P, V.
  destruct (serial_first_failure
              (answer_of transport i) (env st) before after h e) as [O K].
  - exact (entries_all_succeeded transport i before (env st) S).
  - exact E.
  - rewrite O, K. split; reflexivity.
Qed.

Lemma first_failure_ends_the_call_in_serial_mode_witness :
  exists e,
    guard_of (Execute "ls" ["web1"; "web2"])
             (unreachable (bound_env "web1" fresh_env) (Run "ls"))
    = Raise e
    /\ fst (invoke unreachable instance (Execute "ls" ["web1"; "web2"]) fresh)
       = Raise e
    /\ calls (snd (invoke unreachable instance (Execute "ls" ["web1"; "web2"]) fresh))
       = ([] ++ map (fun k => (Some k, Run "ls")) ([] ++ ["web1"]))%list.
Proof.
  apply (first_failure_ends_the_call_in_serial_mode
           unreachable instance (Execute "ls" ["web1"; "web2"]) fresh
           [] ["web2"] "web1").
  - reflexivity.
  - discriminate.
  - reflexivity.
  - intros k [].
  - intros r E. discriminate E.
Defined.

(** ** Over the life of a process *)

Lemma __init___env (a : init_args) (s1 s2 : state) :
  env s1 = env s2 -> env (snd (__init__ a s1)) = env (snd (__init__ a s2)).
Proof.
  destruct s1 as [e1 h1 l1 c1], s2 as [e2 h2 l2 c2], a as [ca ct nt kf gw].
  cbn [env]. intros ->.
  unfold __init__, bind, setenv, LOG_info, ret.
  cbn [arg_conn_attempts arg_cmd_timeout arg_net_timeout arg_key_file arg_gateway].
  destruct (truthy kf); cbn; reflexivity.
Qed.

Lemma history_app (transport : fabric_env -> call -> outcome result)
      (acts1 acts2 : list action) (st : state) :
  history transport (acts1 ++ acts2)%list st
  = history transport acts2 (history transport acts1 st).
Proof. apply fold_left_app. Qed.

Lemma constructor_configures_headless_mode_aux (a : init_args) (st : state) :
  abort_on_prompts (env (snd (__init__ a st))) = true
  /\ skip_bad_hosts (env (snd (__init__ a st))) = true
  /\ parallel (env (snd (__init__ a st))) = true
  /\ use_ssh_config (env (snd (__init__ a st))) = true.
Proof.
  destruct (__init___effect a st) as (_ & _ & _ & _ & A & B & C & _ & D & _).
  now repeat split.
Qed.

(** Once an instance has been constructed, the process stays headless:
    whatever is constructed or called afterwards, and however the calls
    end, [abort_on_prompts], [skip_bad_hosts], [parallel] and
    [use_ssh_config] are on, also in the [env] under which a request for
    any host is then made. *)
Theorem headless_for_the_rest_of_the_process
        (transport : fabric_env -> call -> outcome result)
          (a : init_args) (acts : list action) (st : state) (h : string) :
  let now := env (history transport (Construct a :: acts) st) in
  abort_on_prompts now = true
  /\ skip_bad_hosts now = true
  /\ parallel now = true
  /\ use_ssh_config now = true
  /\ abort_on_prompts (bound_env h now) = true
  /\ skip_bad_hosts (bound_env h now) = true
  /\ parallel (bound_env h now) = true
  /\ use_ssh_config (bound_env h now) = true.
Proof.
  cbv zeta. change (abort_on_prompts (bound_env h ?e)) with (abort_on_prompts e).
  change (skip_bad_hosts (bound_env h ?e)) with (skip_bad_hosts e).
  change (parallel (bound_env h ?e)) with (parallel e).
  change (use_ssh_config (bound_env h ?e)) with (use_ssh_config e).
  cbn [history fold_left perform].
  assert (I : forall acts s,
             (abort_on_prompts (env s) = true /\ skip_bad_hosts (env s) = true
              /\ parallel (env s) = true /\ use_ssh_config (env s) = true) ->
             let e := env (fold_left (fun s act => perform transport act s) acts s) in
             abort_on_prompts e = true /\ skip_bad_hosts e = true
             /\ parallel e = true /\ use_ssh_config e = true).
  { clear. induction acts as [| act acts IH]; intros s F; [exact F |].
    cbn [fold_left]. apply IH.
    destruct act as [a | self i]; cbn [perform].
    - destruct (constructor_configures_headless_mode_aux a s) as (A & B & C & D).
      now repeat split.
    - now rewrite invoke_env. }
  destruct (constructor_configures_headless_mode_aux a st) as (A & B & C & D).
  destruct (I acts (snd (__init__ a st))) as (A' & B' & C' & D');
    now repeat split.
Qed.

(** The [env] of a process is decided by its constructions alone: taking
    every method call out of a history leaves the same [env]. *)
Theorem env_is_decided_by_the_constructions
        (transport : fabric_env -> call -> outcome result)
          (acts : list action) (st : state) :
  env (history transport acts st)
  = env (history transport (filter is_construct acts) st).
Proof.
  unfold history.
  assert (G : forall acts s1 s2,
             env s1 = env s2 ->
             env (fold_left (fun s act => perform transport act s) acts s1)
             = env (fold_left (fun s act => perform transport act s)
                              (filter is_construct acts) s2)).
  { clear. induction acts as [| act acts IH]; intros s1 s2 E; [exact E |].
    destruct act as [a | self i]; cbn [filter is_construct fold_left perform].
    - apply IH. now apply __init___env.
    - apply IH. now rewrite invoke_env. }
  now apply G.
Qed.

(** Nothing in the module turns default key discovery back on: once
    [no_keys] is set, it is set after any history of constructions and
    calls, also of constructions without a key file. *)
Theorem key_restriction_is_never_lifted
        (transport : fabric_env -> call -> outcome result)
          (acts : list action) (st : state) :
  no_keys (env st) = true ->
  no_keys (env (history transport acts st)) = true.
Proof.
  unfold history. revert st.
  induction acts as [| act acts IH]; intros st K; [exact K |].
  cbn [fold_left]. apply IH.
  destruct act as [a | self i]; cbn [perform].
  - destruct (__init___effect a st)
      as (_ & _ & _ & _ & _ & _ & _ & _ & _ & NK & _).
    cbv zeta in NK. rewrite NK, K. now destruct (truthy (arg_key_file a)).
  - now rewrite invoke_env.
Qed.

Lemma key_restriction_is_never_lifted_witness :
  no_keys (env (history succeeds
                        [Call instance (Execute "ls" ["web1"]); Construct no_args]
                        (snd (__init__ with_key fresh))))
  = true.
Proof.
  apply (key_restriction_is_never_lifted
           succeeds
           [Call instance (Execute "ls" ["web1"]); Construct no_args]
           (snd (__init__ with_key fresh))).
  reflexivity.
Defined.

(** ** The usage example *)

Lemma __init___returns (a : init_args) (st : state) :
  __init__ a st = (Ok instance, snd (__init__ a st)).
Proof.
  destruct (__init___effect a st) as (I & _).
  destruct (__init__ a st) as [o s]. cbn in I |- *. now rewrite I.
Qed.

(** The constructor call of the script. *)
Lemma example_constructor (st : state) :
  exists st1,
    __init__ (InitArgs (Some 3) (Some 120) (Some 120) None None) st
    = (Ok instance, st1)
    /\ calls st1 = calls st
    /\ map log_level (log st1) = (map log_level (log st) ++ [INFO])%list
    /\ connection_attempts (env st1) = 3
    /\ command_timeout (env st1) = 120
    /\ timeout (env st1) = 120
    /\ gateway (env st1) = None
    /\ abort_on_prompts (env st1) = true
    /\ parallel (env st1) = true
    /\ env st1
       = env (snd (__init__ (InitArgs (Some 3) (Some 120) (Some 120) None None) st)).
Proof.
  eexists. split; [apply __init___returns |].
  destruct (constructor_configures_headless_mode
              (InitArgs (Some 3) (Some 120) (Some 120) None None) st)
    as (_ & C & L & CA & CT & NT & GW & AP & _ & PA & _).
  cbv zeta in C, L, CA, CT, NT, GW, AP, PA.
  rewrite L, map_app. repeat split; assumption.
Qed.

(** A call of the script on localhost, once the constructor has run: one
    child, one request, [env] as before. *)
Lemma invoke_localhost (transport : fabric_env -> call -> outcome result)
      (i : invocation) (st : state) :
  targets i = ["localhost"] ->
  parallel (env st) = true ->
  env (snd (invoke transport instance i st)) = env st
  /\ calls (snd (invoke transport instance i st))
     = (calls st ++ [(Some "localhost", request_of i)])%list.
Proof.
  intros T P. rewrite invoke_eq, visited_targets by (rewrite T; discriminate).
  rewrite T, P. split; reflexivity.
Qed.

(** However the transport answers, the example configures 3 connection
    attempts and timeouts of 120 seconds, with no gateway and prompts
    disabled, and then makes its requests in the order of the script, all
    on localhost: the listing always, the redirected listing only if the
    first call returned, the download only if the second did.  It never
    uploads.  If it ends normally, all three requests were made. *)
Theorem example_makes_its_requests_in_order
        (transport : fabric_env -> call -> outcome result)
        (p : process) :
  let done := execute_example transport p in
  let st' := fabric_state (snd done) in
  (exists n : nat,
      (1 <= n <= 3)%nat
      /\ calls st' = (calls (fabric_state p) ++ firstn n example_requests)%list)
  /\ (fst done = Ok tt ->
      calls st' = (calls (fabric_state p) ++ example_requests)%list)
  /\ connection_attempts (env st') = 3
  /\ command_timeout (env st') = 120
  /\ timeout (env st') = 120
  /\ gateway (env st') = None
  /\ abort_on_prompts (env st') = true.
Proof.
  cbv zeta. destruct p as [st out].
  unfold execute_example, pbind, print, in_module.
  cbn [fabric_state stdout].
  destruct (example_constructor st)
    as (st1 & -> & C & _ & CA & CT & NT & GW & AP & PA & _).
  cbn [fabric_state stdout].
  change (execute transport instance "ls" ["localhost"])
    with (invoke transport instance (Execute "ls" ["localhost"])).
  destruct (invoke_localhost transport (Execute "ls" ["localhost"]) st1 eq_refl PA)
    as [E1 K1].
  destruct (invoke transport instance (Execute "ls" ["localhost"]) st1)
    as [[data1 | e1] s2]; cbn [fst snd] in E1, K1; cbn [fst snd fabric_state stdout].
  2:{ rewrite K1, C, E1. split; [exists 1%nat; split; [lia | reflexivity] |].
      split; [discriminate |]. now repeat split. }
  change (execute transport instance "ls >example.out" ["localhost"])
    with (invoke transport instance (Execute "ls >example.out" ["localhost"])).
  assert (P2 : parallel (env s2) = true) by (now rewrite E1).
  destruct (invoke_localhost transport (Execute "ls >example.out" ["localhost"])
                             s2 eq_refl P2) as [E2 K2].
  destruct (invoke transport instance (Execute "ls >example.out" ["localhost"]) s2)
    as [[data2 | e2] s3]; cbn [fst snd] in E2, K2; cbn [fst snd fabric_state stdout].
  2:{ rewrite K2, K1, C, E2, E1, <- app_assoc.
      split; [exists 2%nat; split; [lia | reflexivity] |].
      split; [discriminate |]. now repeat split. }
  change (get_file transport instance (HostStr "localhost")
                   "example.out" "local_example.out")
    with (invoke transport instance
                 (GetFile (HostStr "localhost") "example.out" "local_example.out")).
  assert (P3 : parallel (env s3) = true) by (now rewrite E2, E1).
  destruct (invoke_localhost transport
                             (GetFile (HostStr "localhost") "example.out"
                                      "local_example.out") s3 eq_refl P3)
    as [E3 K3].
  destruct (invoke transport instance
                   (GetFile (HostStr "localhost") "example.out" "local_example.out")
                   s3)
    as [[data3 | e3] s4]; cbn [fst snd] in E3, K3; cbn [fst snd fabric_state stdout];
    rewrite K3, K2, K1, C, E3, E2, E1, <- !app_assoc;
    (split; [exists 3%nat; split; [lia | reflexivity] |]);
    (split; [intros _; reflexivity |]); now repeat split.
Qed.

Lemma example_makes_its_requests_in_order_witness :
  calls (fabric_state (snd (execute_example succeeds (Process fresh []))))
  = ([] ++ example_requests)%list.
Proof.
  destruct (example_makes_its_requests_in_order succeeds (Process fresh []))
    as (_ & A & _).
  apply A. reflexivity.
Defined.

(** When every request succeeds, the example runs to its end: it prints
    its eight lines and the mapping of the first listing, in the order of
    the script, and the log gains the constructor's line and one line per
    call, none of them a warning. *)
Theorem example_runs_to_its_end
        (transport : fabric_env -> call -> outcome result)
        (p : process) :
  (forall e c, exists r, transport e c = Ok r /\ failed r = false) ->
  let done := execute_example transport p in
  let configured :=
    env (snd (__init__ (InitArgs (Some 3) (Some 120) (Some 120) None None)
                       (fabric_state p))) in
  fst done = Ok tt
  /\ stdout (snd done)
     = (stdout p
        ++ [PrintStr "Initializing HeadlessFabric...";
            PrintStr (TAB ++ "Maximum number of connection attempts to remote host: 3");
            PrintStr (TAB ++ "Command timeout (in seconds): 120");
            PrintStr (TAB ++ "Network timeout (in seconds): 120");
            PrintStr "Executing 'ls' on localhost";
            PrintData [("localhost",
                        transport (bound_env "localhost" configured) (Run "ls"))];
            PrintStr (NL ++ "Executing 'ls >example.out' on localhost");
            PrintStr (NL ++ "Downloading 'example.out' to 'local_example.out'");
            PrintStr (NL ++ "Success! (You may want to delete those example files.)")])%list
  /\ map log_level (log (fabric_state (snd done)))
     = (map log_level (log (fabric_state p)) ++ [INFO; INFO; INFO; INFO])%list.
Proof.
  intros S. cbv zeta. destruct p as [st out].
  unfold execute_example, pbind, print, in_module.
  cbn [fabric_state stdout].
  destruct (example_constructor st) as (st1 & -> & _ & L & _ & _ & _ & _ & _ & _ & E).
  rewrite <- E. clear E.
  assert (A : forall i s,
             targets i = ["localhost"] ->
             invoke transport instance i s
             = (Ok [("localhost",
                     transport (bound_env "localhost" (env s)) (request_of i))],
                State (env s) (hidden s) (log s ++ [entry_record i])%list
                      (calls s ++ [(Some "localhost", request_of i)])%list)).
  { intros i s T.
    rewrite (invoke_success transport instance i s).
    - rewrite T. reflexivity.
    - rewrite T. discriminate.
    - intros h _. apply S. }
  change (execute transport instance "ls" ["localhost"])
    with (invoke transport instance (Execute "ls" ["localhost"])).
  rewrite A by reflexivity.
  cbn [fabric_state stdout].
  change (execute transport instance "ls >example.out" ["localhost"])
    with (invoke transport instance (Execute "ls >example.out" ["localhost"])).
  rewrite A by reflexivity.
  cbn [fabric_state stdout].
  change (get_file transport instance (HostStr "localhost")
                   "example.out" "local_example.out")
    with (invoke transport instance
                 (GetFile (HostStr "localhost") "example.out" "local_example.out")).
  rewrite A by reflexivity.
  cbn [fst snd fabric_state stdout env log request_of].
  split; [reflexivity |]. split.
  - rewrite <- !app_assoc. reflexivity.
  - rewrite !map_app, L. cbn [map log_level entry_record].
    rewrite <- !app_assoc. reflexivity.
Qed.

Lemma example_runs_to_its_end_witness :
  fst (execute_example succeeds (Process fresh [])) = Ok tt.
Proof.
  destruct (example_runs_to_its_end succeeds (Process fresh [])) as (A & _).
  - intros e c. exists (Result false 0 "done"). split; reflexivity.
  - exact A.
Defined.
